(** * greensight-manager: quotation / invoice / inventory logic

    A shallow embedding of the business logic of the dashboard:

    - [QuotationForm]    (components/quotations/QuotationForm.tsx, stored in the
                          second half of src/components/products/ProductList.tsx):
                          the running total, the form and its inputs, the
                          validation loop and the write of a new quotation;
    - [InvoiceGenerator] (components/invoices/InvoiceGenerator.tsx): the
                          derivation of an invoice from a quotation and the two
                          store writes of [onSubmit];
    - [ProductList]      (components/products/ProductList.tsx): the list and
                          its filter, direct edit, deletion and signed
                          inventory adjustment of a product;
    - [QuotationList]    (src/unnamed/part_004, first file): the list, its
                          names and search, deletion, and the entry to the
                          invoice generator;
    - [AuthContext]      (src/unnamed/part_004, second file): the callback of
                          the authentication state and the role;
    - [StatsOverview]    (second file of components/customers/CustomerList.tsx):
                          the counts and the categories;
    - [Amounts]          the three totals of the program (the running total
                          of the quotation form, the total of an invoice, the
                          total sales of the dashboard) over the arithmetic
                          they are computed in.

    Conventions of the model.

    - Numbers.  Quantities, counts and timestamps are integers of [Z]
      (quantities come from [parseInt]).  The handlers are modelled with
      amounts in [Z] as well: this fixes their control flow and the shape of
      what they write, and a sum is written there as the source folds it.
      Prices, however, have decimals ([parseFloat], [step="0.01"]), and a
      JavaScript number is an IEEE 754 binary64 double, so that every
      addition of amounts rounds.  What depends on the arithmetic is stated
      on [Amounts], whose totals are defined over an interface [Number.t]
      with two instances: [binary64], the doubles of the program, and
      [exact], the integers.  A statement that needs a law of addition
      (associativity, commutativity) takes it as a hypothesis.
    - Every handler is an [async] function whose body is one [try]/[catch]
      block.  Handlers are computations of the monad [Js]: a state monad over
      a [World] (the entity store, the toasts shown so far, the schedule of
      I/O faults, the server clock) with exceptions.
    - [toast], [setIsSubmitting] and the alert scheduled with [setTimeout] are
      recorded in the [World]; the other React setters that only reset dialogs
      are not modelled.
    - A form element without [noValidate] is submitted by the browser only
      when its inputs satisfy their constraints ([required], [min], [max]):
      the [submit] event, and with it the handler, is not fired otherwise. *)

From stdpp Require Import gmap strings list fin_maps pretty.
From Stdlib Require Import ZArith Lia Permutation Sorted.
From Corelib Require Import PrimFloat.

Local Open Scope Z_scope.

(* A decimal literal such as [0.1] stands for the nearest double, as it does
   in the source. *)
Set Warnings "-inexact-float".

(* ===================================================================== *)
(** ** Data model *)
(* ===================================================================== *)

(** [interface Product] of ProductList.tsx. *)
Module Product.
Record t := mk {
    id : string;
    name : string;
    type : string;
    voltage : string;
    rating : string;
    make : string;
    quantity : Z;
    unit : string;
    price : Z;
    createdAt : Z
  }.
End Product.

(** [interface Customer]. *)
Module Customer.
Record t := mk {
    id : string;
    name : string;
    email : string;
    address : string;
    location : string;
    phone : string
  }.
End Customer.

(** [status: 'pending' | 'approved' | 'rejected' | 'invoiced']. *)
Inductive QuotationStatus := pending | approved | rejected | invoiced.

(** [interface QuotationItem] of InvoiceGenerator.tsx and QuotationList.tsx:
    a stored line item; [productName] is the optional display name that
    QuotationList adds to the items it holds in memory. *)
Module QuotationItem.
Record t := mk {
    productId : string;
    quantity : Z;
    unitPrice : Z;
    subtotal : Z;
    productName : option string
  }.
End QuotationItem.

(** [interface Quotation] of InvoiceGenerator.tsx: a quotation as the list
    view holds it, that is the stored record together with its key. *)
Module Quotation.
Record t := mk {
    id : string;
    customerId : string;
    customerName : option string;
    items : list QuotationItem.t;
    totalAmount : Z;
    validUntil : string;
    status : QuotationStatus;
    notes : option string;
    createdAt : Z
  }.
End Quotation.

(** One element of [additionalItems] in [invoiceSchema]. *)
Module AdditionalItem.
Record t := mk {
    description : string;
    amount : Z
  }.
End AdditionalItem.

(** [type InvoiceFormValues = z.infer<typeof invoiceSchema>]. *)
Module InvoiceFormValues.
Record t := mk {
    invoiceNumber : string;
    invoiceDate : string;
    paymentTerms : string;
    warrantyPeriod : option string;
    notes : option string;
    additionalItems : option (list AdditionalItem.t)
  }.
End InvoiceFormValues.

(** [type QuotationFormValues = z.infer<typeof quotationSchema>]. *)
Module QuotationFormValues.
Record t := mk {
    customerId : string;
    validUntil : string;
    notes : option string
  }.
End QuotationFormValues.

(** [useState<'customer' | 'company'>]. *)
Inductive InvoiceType := customer | company.

(** [status: 'active' | 'paid' | 'cancelled'] of InvoiceList.tsx. *)
Inductive InvoiceStatus := active | paid | cancelled.

(** The argument of [toast({ title, description, variant })]. *)
Record Toast := mkToast {
  title : string;
  description : string;
  variant : option string
}.

(* ===================================================================== *)
(** ** Numbers *)
(* ===================================================================== *)

(** What the totals use of the JavaScript [number]: [0], [+], [*], and the
    test of [x || d], which takes [d] when [x] is falsy. *)
Module Number.
Class t (N : Type) := mk {
    zero : N;
    add : N → N → N;
    mul : N → N → N;
    truthy : N → bool
  }.
End Number.

(** The numbers of the program: IEEE 754 binary64, with [+] and [*] rounded
    to nearest, ties to even.  [0], [-0] and [NaN] are falsy. *)
Global Instance binary64 : Number.t float :=
  {| Number.zero := 0%float;
     Number.add := PrimFloat.add;
     Number.mul := PrimFloat.mul;
     Number.truthy := λ x, negb (PrimFloat.eqb x 0%float || PrimFloat.is_nan x) |}.

(** The integers, where every operation is exact. *)
Global Instance exact : Number.t Z :=
  {| Number.zero := 0;
     Number.add := Z.add;
     Number.mul := Z.mul;
     Number.truthy := λ x, negb (x =? 0) |}.

(* ===================================================================== *)
(** ** The entity store *)
(* ===================================================================== *)

(** The records kept under [products/], [quotations/] and [invoices/].  A
    stored record has no [id] field: its identity is its key. *)
Module Db.

(** What AddProductForm pushes and ProductList updates. *)
Record product := mkProduct {
    name : string;
    type : string;
    voltage : string;
    rating : string;
    make : string;
    quantity : Z;
    unit : string;
    price : Z;
    createdAt : Z;
    updatedAt : option Z
  }.

(** [quotationData] of QuotationForm.onSubmit. *)
Record quotation := mkQuotation {
    customerId : string;
    validUntil : string;
    notes : option string;
    items : list QuotationItem.t;
    totalAmount : Z;
    status : QuotationStatus;
    q_createdAt : Z
  }.

(** [invoiceData] of InvoiceGenerator.onSubmit: the form values spread
    first, then the derived fields. *)
Record invoice := mkInvoice {
    form : InvoiceFormValues.t;
    quotationId : string;
    i_customerId : string;
    i_items : list QuotationItem.t;
    i_totalAmount : Z;
    i_type : InvoiceType;
    i_status : InvoiceStatus;
    i_createdAt : Z
  }.

(** The three collections the handlers write to. *)
Record t := mk {
    products : gmap string product;
    quotations : gmap string quotation;
    invoices : gmap string invoice
  }.

Definition with_products (f : gmap string product → gmap string product) (s : t) : t :=
    mk (f (products s)) (quotations s) (invoices s).
Definition with_quotations (f : gmap string quotation → gmap string quotation) (s : t) : t :=
    mk (products s) (f (quotations s)) (invoices s).
Definition with_invoices (f : gmap string invoice → gmap string invoice) (s : t) : t :=
    mk (products s) (quotations s) (f (invoices s)).

End Db.

(** The partial records passed to [update]. *)
Module Patch.

(** [{ status: 'invoiced' }]. *)
Record quotation := mkQuotation {
    status : option QuotationStatus
  }.

(** [{ ...editForm, updatedAt }] and [{ quantity, updatedAt }]. *)
Record product := mkProduct {
    name : option string;
    type : option string;
    voltage : option string;
    rating : option string;
    make : option string;
    quantity : option Z;
    unit : option string;
    price : option Z;
    updatedAt : option Z
  }.

Definition apply_quotation (p : quotation) (q : Db.quotation) : Db.quotation :=
  Db.mkQuotation (Db.customerId q) (Db.validUntil q) (Db.notes q) (Db.items q)
    (Db.totalAmount q) (default (Db.status q) (status p)) (Db.q_createdAt q).

Definition apply_product (p : product) (r : Db.product) : Db.product :=
  Db.mkProduct
    (default (Db.name r) (name p)) (default (Db.type r) (type p))
    (default (Db.voltage r) (voltage p)) (default (Db.rating r) (rating p))
    (default (Db.make r) (make p)) (default (Db.quantity r) (quantity p))
    (default (Db.unit r) (unit p)) (default (Db.price r) (price p))
    (Db.createdAt r)
    (match updatedAt p with Some u => Some u | None => Db.updatedAt r end).

End Patch.

(* ===================================================================== *)
(** ** The world and the monad of handlers *)
(* ===================================================================== *)

(** [faults] is the schedule of the store's I/O: every call to the store
    consumes its head, [true] meaning that this call rejects; an empty
    schedule means that no call fails.  [now] is what [serverTimestamp()]
    resolves to. *)
Record World := mkWorld {
  db : Db.t;
  toasts : list Toast;
  faults : list bool;
  now : Z;
  isSubmitting : bool;
  alerts : list string
}.

Definition set_db (f : Db.t → Db.t) (w : World) : World :=
  mkWorld (f (db w)) (toasts w) (faults w) (now w) (isSubmitting w) (alerts w).
Definition set_toasts (f : list Toast → list Toast) (w : World) : World :=
  mkWorld (db w) (f (toasts w)) (faults w) (now w) (isSubmitting w) (alerts w).
Definition set_faults (f : list bool → list bool) (w : World) : World :=
  mkWorld (db w) (toasts w) (f (faults w)) (now w) (isSubmitting w) (alerts w).
Definition set_isSubmitting (b : bool) (w : World) : World :=
  mkWorld (db w) (toasts w) (faults w) (now w) b (alerts w).
Definition set_alerts (f : list string → list string) (w : World) : World :=
  mkWorld (db w) (toasts w) (faults w) (now w) (isSubmitting w) (f (alerts w)).

(** How a block of statements ends. *)
Inductive Completion (A : Type) :=
| Normal (a : A)
| Throw (e : string).
Arguments Normal {A} a.
Arguments Throw {A} e.

Definition Js (A : Type) : Type := World → Completion A * World.

Definition ret {A} (a : A) : Js A := λ w, (Normal a, w).

Definition bind {A B} (m : Js A) (k : A → Js B) : Js B :=
  λ w, match m w with
       | (Normal a, w') => k a w'
       | (Throw e, w') => (Throw e, w')
       end.

Definition throw {A} (e : string) : Js A := λ w, (Throw e, w).

(** [try { body } catch (error) { handler }]. *)
Definition try_catch {A} (body : Js A) (handler : string → Js A) : Js A :=
  λ w, match body w with
       | (Normal a, w') => (Normal a, w')
       | (Throw e, w') => handler e w'
       end.

(** [try { body } finally { fin }]: [fin] runs however [body] ends. *)
Definition try_finally {A} (body : Js A) (fin : Js ()) : Js A :=
  λ w, match body w with
       | (c, w') =>
           match fin w' with
           | (Normal _, w'') => (c, w'')
           | (Throw e, w'') => (Throw e, w'')
           end
       end.

Global Instance js_ret : MRet Js := @ret.
Global Instance js_bind : MBind Js := λ A B k m, bind m k.

Definition modify (f : World → World) : Js () := λ w, (Normal (), f w).
Definition gets {A} (f : World → A) : Js A := λ w, (Normal (f w), w).

(** [toast({...})]. *)
Definition toast (t : Toast) : Js () := modify (set_toasts (λ l, l ++ [t])).

(** [serverTimestamp()]. *)
Definition serverTimestamp : Js Z := gets now.

(** Modelled from the spec: the entity store of section 6, which the sources
    reach through [push] and [update] of the database client but do not
    contain.  [create(collection, record) -> id] appends a record under a
    generated identifier; [update(collection, id, partialRecord)] merges
    fields into an existing record and fails if the id is absent.  Either
    call may also fail on its own (I/O), which the fault schedule decides;
    a failed call writes nothing.  [io_call] is the part common to every
    call: it takes the next entry of the schedule. *)
Definition io_call : Js () :=
  λ w, match faults w with
       | true :: rest => (Throw "store", set_faults (λ _, rest) w)
       | false :: rest => (Normal (), set_faults (λ _, rest) w)
       | [] => (Normal (), w)
       end.

(** Modelled from the spec: [create] on the collection [invoices], reached
    by [push(ref(db, 'invoices'), invoiceData)]. *)
Definition push_invoice (r : Db.invoice) : Js string :=
  io_call ;;
  k ← gets (λ w, fresh (dom (Db.invoices (db w)))) ;
  modify (set_db (Db.with_invoices (insert k r))) ;;
  mret k.

(** Modelled from the spec: [create] on the collection [quotations], reached
    by [push(ref(db, 'quotations'), quotationData)]. *)
Definition push_quotation (r : Db.quotation) : Js string :=
  io_call ;;
  k ← gets (λ w, fresh (dom (Db.quotations (db w)))) ;
  modify (set_db (Db.with_quotations (insert k r))) ;;
  mret k.

(** Modelled from the spec: [update] of a quotation record, reached by
    [update(ref(db, `quotations/${id}`), partialRecord)]. *)
Definition update_quotation (id : string) (p : Patch.quotation) : Js () :=
  io_call ;;
  old ← gets (λ w, Db.quotations (db w) !! id) ;
  match old with
  | Some q => modify (set_db (Db.with_quotations (insert id (Patch.apply_quotation p q))))
  | None => throw "absent"
  end.

(** Modelled from the spec: [update] of a product record, reached by
    [update(ref(db, `products/${id}`), partialRecord)]. *)
Definition update_product (id : string) (p : Patch.product) : Js () :=
  io_call ;;
  old ← gets (λ w, Db.products (db w) !! id) ;
  match old with
  | Some r => modify (set_db (Db.with_products (insert id (Patch.apply_product p r))))
  | None => throw "absent"
  end.

(** Modelled from the spec: [remove(collection, id)] deletes a record, with
    no cascade; reached by [remove(ref(db, `products/${id}`))]. *)
Definition remove_product (id : string) : Js () :=
  io_call ;;
  modify (set_db (Db.with_products (delete id))).

(** Modelled from the spec: [remove] of a quotation record, reached by
    [remove(ref(db, `quotations/${quotationId}`))]. *)
Definition remove_quotation (id : string) : Js () :=
  io_call ;;
  modify (set_db (Db.with_quotations (delete id))).

(** [x || d] for an optional number [x]: [undefined] and [0] are falsy. *)
Definition or_number (x : option Z) (d : Z) : Z :=
  match x with
  | Some v => if v =? 0 then d else v
  | None => d
  end.

Arguments or_number : simpl never.

(** The toast of every [catch] block: a destructive "Error" toast. *)
Definition error_toast (msg : string) : Toast :=
  mkToast "Error" msg (Some "destructive").

Definition success_toast (msg : string) : Toast :=
  mkToast "Success" msg None.

(** [x || d] for an optional string [x]: [undefined] and [''] are falsy. *)
Definition or_string (x : option string) (d : string) : string :=
  match x with
  | Some v => if String.eqb v "" then d else v
  | None => d
  end.

(** [s.length >= 1], the test of [z.string().min(1)]. *)
Definition min1 (s : string) : bool := (1 <=? String.length s)%nat.

(** The children of a collection as a snapshot hands them to [forEach], or
    to [Object.keys] of its value: the keys with their records, in the order
    of the iteration.  A snapshot that does not exist is the empty list. *)
Definition Snapshot (V : Type) : Type := list (string * V).

(** [xs.sort((a, b) => key(b) - key(a))].  [Array.prototype.sort] is stable,
    so with this comparator the result is the one stable arrangement by
    decreasing key: [insert_desc] puts an element after the elements of a
    greater key and before those of a key less or equal, which come after it
    in the array. *)
Fixpoint insert_desc {A} (key : A → Z) (x : A) (sorted : list A) : list A :=
  match sorted with
  | [] => [x]
  | y :: rest => if key x <? key y then y :: insert_desc key x rest else x :: y :: rest
  end.

Definition sort_desc {A} (key : A → Z) (xs : list A) : list A :=
  foldr (insert_desc key) [] xs.

(** The string methods the search boxes use, [toLowerCase], [trim] and
    [includes], which the sources call but do not define. *)
Record StringOps := mkStringOps {
  toLowerCase : string → string;
  trim : string → string;
  includes : string → string → bool
}.

(* ===================================================================== *)
(** ** QuotationForm *)
(* ===================================================================== *)

Module QuotationForm.

(** [interface QuotationItem] of the form: a line being edited, with the
    product object that [updateQuotationItem] attached when the product was
    selected. *)
Record QuotationItem := mkItem {
  productId : string;
  quantity : Z;
  product : option Product.t
}.

(** The [onChange] of the quantity input:
    [updateQuotationItem(index, 'quantity', parseInt(e.target.value) || 1)];
    [parsed] is the result of [parseInt], [None] for [NaN]. *)
Definition quantityOfInput (parsed : option Z) : Z := or_number parsed 1.

(** The effect that follows [quotationItems]:
    [let sum = 0; quotationItems.forEach(item => { if (item.product) sum +=
    item.product.price * item.quantity }); setTotal(sum)].  Here with the
    amounts in [Z]; [Amounts.total] is the same fold over any arithmetic. *)
Definition total (quotationItems : list QuotationItem) : Z :=
  fold_left
    (λ sum item,
       match product item with
       | Some p => sum + Product.price p * quantity item
       | None => sum
       end)
    quotationItems 0.

Definition empty_error : Toast :=
  error_toast "Please add at least one product to the quotation".
Definition select_error : Toast :=
  error_toast "Please select a product for each quotation item".
Definition not_found_error : Toast :=
  error_toast "One or more products not found".
Definition stock_error (product : Product.t) : Toast :=
  error_toast ("Only " +:+ pretty (Product.quantity product) +:+ " units of "
               +:+ Product.name product +:+ " are available").
Definition create_error : Toast :=
  error_toast "Failed to create quotation. Please try again.".
Definition created : Toast :=
  success_toast "Quotation created successfully".

(** [products.find(p => p.id === item.productId)]. *)
Definition findProduct (products : list Product.t) (productId : string) : option Product.t :=
  List.find (λ p, String.eqb (Product.id p) productId) products.

(** The loop [for (const item of quotationItems) { ... return; ... }] of
    [onSubmit]: the toast of the first check that fails, [None] when the
    loop runs to its end. *)
Fixpoint validateItems (products : list Product.t) (quotationItems : list QuotationItem)
  : option Toast :=
  match quotationItems with
  | [] => None
  | item :: rest =>
      if String.eqb (productId item) "" then Some select_error
      else
        match findProduct products (productId item) with
        | None => Some not_found_error
        | Some product =>
            if Product.quantity product <? quantity item then Some (stock_error product)
            else validateItems products rest
        end
  end.

(** One element of [quotationItems.map(item => ({ productId, quantity,
    unitPrice: item.product?.price || 0, subtotal: (item.product?.price || 0)
    * item.quantity }))]. *)
Definition storedItem (item : QuotationItem) : QuotationItem.t :=
  QuotationItem.mk
    (productId item)
    (quantity item)
    (or_number (Product.price <$> product item) 0)
    (or_number (Product.price <$> product item) 0 * quantity item)
    None.

(** [quotationData]; [total] is the state the effect above keeps equal to
    [total quotationItems]. *)
Definition quotationData (data : QuotationFormValues.t)
    (quotationItems : list QuotationItem) (createdAt : Z) : Db.quotation :=
  Db.mkQuotation
    (QuotationFormValues.customerId data)
    (QuotationFormValues.validUntil data)
    (QuotationFormValues.notes data)
    (map storedItem quotationItems)
    (total quotationItems)
    pending
    createdAt.

(** [onSubmit]; the result is the value of [quotationItems] when the handler
    is done ([setQuotationItems([])] after a successful write). *)
Definition onSubmit (products : list Product.t) (quotationItems : list QuotationItem)
    (data : QuotationFormValues.t) : Js (list QuotationItem) :=
  try_catch
    (if (length quotationItems =? 0)%nat then
       toast empty_error ;; mret quotationItems
     else
       match validateItems products quotationItems with
       | Some t => toast t ;; mret quotationItems
       | None =>
           createdAt ← serverTimestamp ;
           push_quotation (quotationData data quotationItems createdAt) ;;
           toast created ;;
           mret []
       end)
    (λ _, toast create_error ;; mret quotationItems).

(** [addQuotationItem]:
    [setQuotationItems([...quotationItems, { productId: '', quantity: 1 }])]. *)
Definition addQuotationItem (quotationItems : list QuotationItem) : list QuotationItem :=
  quotationItems ++ [mkItem "" 1 None].

(** [removeQuotationItem(index)]: [updatedItems.splice(index, 1)] on a copy.
    [index] is the position of the line in [quotationItems.map]; past the
    end [splice] removes nothing. *)
Definition removeQuotationItem (index : nat) (quotationItems : list QuotationItem)
  : list QuotationItem :=
  delete index quotationItems.

(** The arguments [field: 'productId' | 'quantity'] and [value] of
    [updateQuotationItem]. *)
Inductive FieldValue :=
| ProductIdValue (value : string)
| QuantityValue (value : Z).

(** [updateQuotationItem(index, field, value)]:
    [updatedItems[index] = { ...updatedItems[index], [field]: value }], and
    for the field [productId] also
    [updatedItems[index].product = products.find(p => p.id === productId)].
    For an [index] past the end the source stores an object that has this
    one field only, which is no [QuotationItem]: the model stops there with
    [None]. *)
Definition updateQuotationItem (products : list Product.t)
    (quotationItems : list QuotationItem) (index : nat) (fv : FieldValue)
  : option (list QuotationItem) :=
  match quotationItems !! index with
  | Some item =>
      Some (<[index :=
                match fv with
                | ProductIdValue value =>
                    mkItem value (quantity item) (findProduct products value)
                | QuantityValue value => mkItem (productId item) value (product item)
                end]> quotationItems)
  | None => None
  end.

(** The callback of [fetchProducts]: [snapshot.forEach(child =>
    productsData.push({ id: child.key, ...child.val() }))]. *)
Definition productsOfSnapshot (snapshot : Snapshot Db.product) : list Product.t :=
  map (λ child,
         Product.mk child.1 (Db.name child.2) (Db.type child.2) (Db.voltage child.2)
           (Db.rating child.2) (Db.make child.2) (Db.quantity child.2) (Db.unit child.2)
           (Db.price child.2) (Db.createdAt child.2))
      snapshot.

(** [quotationSchema]: a customer and a validity date of one character at
    least; the notes are optional. *)
Definition quotationSchema (data : QuotationFormValues.t) : bool :=
  min1 (QuotationFormValues.customerId data)
  && min1 (QuotationFormValues.validUntil data).

(** The quantity input of a line: [<Input type="number" min="1"
    max={product?.quantity || 1} value={item.quantity} />], where [product]
    is [products.find(p => p.id === item.productId)].  The input satisfies
    its constraints when its value is neither below [min] nor above
    [max]. *)
Definition quantityInputValid (products : list Product.t) (item : QuotationItem) : bool :=
  (1 <=? quantity item)
  && (quantity item
      <=? or_number (Product.quantity <$> findProduct products (productId item)) 1).

(** The first line, in the order of the form, whose quantity input does not
    satisfy its constraints: the input that the browser reports. *)
Fixpoint firstInvalid (products : list Product.t) (quotationItems : list QuotationItem)
  : option nat :=
  match quotationItems with
  | [] => None
  | item :: rest =>
      if quantityInputValid products item then S <$> firstInvalid products rest
      else Some 0%nat
  end.

(** What a click on "Create Quotation" comes to: nothing, for a disabled
    button; the validation message of the browser on the quantity input of
    a line, and no [submit] event; the field messages of the resolver, and no
    call of [onSubmit]; or [onSubmit], with the lines it leaves. *)
Inductive Submission :=
| ButtonDisabled
| InputInvalid (index : nat)
| SchemaInvalid
| Submitted (quotationItems : list QuotationItem).

(** [<form onSubmit={form.handleSubmit(onSubmit)}>], with the resolver
    [zodResolver(quotationSchema)], and its button [<Button type="submit"
    disabled={quotationItems.length === 0}>].  The quantity inputs are the
    only inputs of the form that carry a constraint. *)
Definition submit (products : list Product.t) (quotationItems : list QuotationItem)
    (data : QuotationFormValues.t) : Js Submission :=
  if (length quotationItems =? 0)%nat then mret ButtonDisabled
  else
    match firstInvalid products quotationItems with
    | Some index => mret (InputInvalid index)
    | None =>
        if quotationSchema data then
          remaining ← onSubmit products quotationItems data ;
          mret (Submitted remaining)
        else mret SchemaInvalid
    end.

End QuotationForm.

(* ===================================================================== *)
(** ** InvoiceGenerator *)
(* ===================================================================== *)

Module InvoiceGenerator.

Definition generate_error : Toast :=
  error_toast "Failed to generate invoice. Please try again.".
Definition generated : Toast :=
  success_toast "Invoice generated successfully".

(** [let totalAmount = quotation.totalAmount; if (data.additionalItems &&
    data.additionalItems.length > 0) { data.additionalItems.forEach(item =>
    { totalAmount += item.amount }) }].  Here with the amounts in [Z];
    [Amounts.totalAmount] is the same loop over any arithmetic. *)
Definition totalAmount (quotation : Quotation.t) (data : InvoiceFormValues.t) : Z :=
  match InvoiceFormValues.additionalItems data with
  | Some additionalItems =>
      if (0 <? length additionalItems)%nat then
        fold_left (λ totalAmount item, totalAmount + AdditionalItem.amount item)
          additionalItems (Quotation.totalAmount quotation)
      else Quotation.totalAmount quotation
  | None => Quotation.totalAmount quotation
  end.

(** [invoiceData]. *)
Definition invoiceData (quotation : Quotation.t) (customerId : string)
    (invoiceType : InvoiceType) (data : InvoiceFormValues.t) (createdAt : Z) : Db.invoice :=
  Db.mkInvoice
    data
    (Quotation.id quotation)
    customerId
    (Quotation.items quotation)
    (totalAmount quotation data)
    invoiceType
    active
    createdAt.

(** The text of the alert scheduled on success. *)
Definition alert_text (data : InvoiceFormValues.t) : string :=
  "Invoice " +:+ InvoiceFormValues.invoiceNumber data +:+
  " generated successfully. In a production environment, this would trigger the PDF generation and download process.".

(** [onSubmit].  The props are [quotation], [customer] and [products];
    QuotationList passes [customers[selectedQuotation.customerId]], which is
    [undefined] for a quotation of an unknown customer, and reading
    [customer.id] then throws inside the [try]. *)
Definition onSubmit (quotation : Quotation.t) (customer : option Customer.t)
    (products : gmap string Product.t) (invoiceType : InvoiceType)
    (data : InvoiceFormValues.t) : Js () :=
  try_finally
    (try_catch
       (modify (set_isSubmitting true) ;;
        customerId ← match customer with
                     | Some c => mret (Customer.id c)
                     | None => throw "TypeError"
                     end ;
        createdAt ← serverTimestamp ;
        newInvoiceRef ← push_invoice (invoiceData quotation customerId invoiceType data createdAt) ;
        update_quotation (Quotation.id quotation) (Patch.mkQuotation (Some invoiced)) ;;
        toast generated ;;
        modify (set_alerts (λ l, l ++ [alert_text data])))
       (λ _, toast generate_error))
    (modify (set_isSubmitting false)).

(** [invoiceSchema]: the three required strings, and for every additional
    item a description of one character at least and an amount of 0 at
    least. *)
Definition invoiceSchema (data : InvoiceFormValues.t) : bool :=
  min1 (InvoiceFormValues.invoiceNumber data)
  && min1 (InvoiceFormValues.invoiceDate data)
  && min1 (InvoiceFormValues.paymentTerms data)
  && match InvoiceFormValues.additionalItems data with
     | Some additionalItems =>
         forallb (λ item, min1 (AdditionalItem.description item)
                          && (0 <=? AdditionalItem.amount item))
                 additionalItems
     | None => true
     end.

(** [form.handleSubmit(onSubmit)] with the resolver [zodResolver(invoiceSchema)]:
    [onSubmit] is called with the form values when they satisfy the schema,
    and is not called otherwise. *)
Definition handleSubmit (quotation : Quotation.t) (customer : option Customer.t)
    (products : gmap string Product.t) (invoiceType : InvoiceType)
    (data : InvoiceFormValues.t) : Js () :=
  if invoiceSchema data then onSubmit quotation customer products invoiceType data
  else mret ().

Definition with_additionalItems (items : list AdditionalItem.t) (data : InvoiceFormValues.t)
  : InvoiceFormValues.t :=
  InvoiceFormValues.mk
    (InvoiceFormValues.invoiceNumber data) (InvoiceFormValues.invoiceDate data)
    (InvoiceFormValues.paymentTerms data) (InvoiceFormValues.warrantyPeriod data)
    (InvoiceFormValues.notes data) (Some items).

(** [addAdditionalItem]: [form.setValue('additionalItems', [...(form.getValues(
    'additionalItems') || []), { description: '', amount: 0 }])]. *)
Definition addAdditionalItem (data : InvoiceFormValues.t) : InvoiceFormValues.t :=
  with_additionalItems
    (default [] (InvoiceFormValues.additionalItems data) ++ [AdditionalItem.mk "" 0]) data.

(** [removeAdditionalItem(index)]: [splice(index, 1)] on a copy of
    [form.getValues('additionalItems') || []]. *)
Definition removeAdditionalItem (index : nat) (data : InvoiceFormValues.t)
  : InvoiceFormValues.t :=
  with_additionalItems (delete index (default [] (InvoiceFormValues.additionalItems data))) data.

End InvoiceGenerator.

(* ===================================================================== *)
(** ** QuotationList *)
(* ===================================================================== *)

Module QuotationList.

(** The two pieces of state that open the invoice dialog. *)
Record State := mkState {
  selectedQuotation : option Quotation.t;
  showInvoice : bool
}.

(** The [onClick] of the "Generate Invoice" button, which the details dialog
    renders for every quotation of the list:
    [setSelectedQuotation(quotation); setShowInvoice(true)]. *)
Definition generateInvoiceClick (quotation : Quotation.t) (s : State) : State :=
  mkState (Some quotation) true.

(** [{showInvoice && selectedQuotation && (<InvoiceGenerator
    quotation={selectedQuotation}
    customer={customers[selectedQuotation.customerId]} ... />)}]: the props
    the generator is mounted with, if it is mounted. *)
Definition invoiceGeneratorProps (customers : gmap string Customer.t) (s : State)
  : option (Quotation.t * option Customer.t) :=
  if showInvoice s then
    match selectedQuotation s with
    | Some selected => Some (selected, customers !! Quotation.customerId selected)
    | None => None
    end
  else None.

Definition delete_error : Toast :=
  error_toast "Failed to delete quotation. Please try again.".
Definition deleted : Toast :=
  success_toast "Quotation deleted successfully".

(** The callback of [onValue(quotationsRef, ...)]: every child becomes
    [{ id: key, ...quotationData, createdAt: quotationData.createdAt ||
    Date.now() }], and the list is sorted by creation date, newest first.
    [dateNow] is the value of [Date.now()]. *)
Definition ofSnapshot (dateNow : Z) (snapshot : Snapshot Db.quotation) : list Quotation.t :=
  sort_desc Quotation.createdAt
    (map (λ child,
            Quotation.mk child.1 (Db.customerId child.2) None (Db.items child.2)
              (Db.totalAmount child.2) (Db.validUntil child.2) (Db.status child.2)
              (Db.notes child.2) (or_number (Some (Db.q_createdAt child.2)) dateNow))
         snapshot).

(** [{ ...item, productName: products[item.productId]?.name ||
    'Unknown Product' }].  [products] is a plain object indexed by a string:
    [products[id]] is the record stored under [id], or a member that every
    object inherits, such as [constructor].  The model does not decide this:
    [productName id] is what [products[id]?.name] evaluates to, [None] for
    [undefined]. *)
Definition itemWithName (productName : string → option string) (item : QuotationItem.t)
  : QuotationItem.t :=
  QuotationItem.mk
    (QuotationItem.productId item) (QuotationItem.quantity item)
    (QuotationItem.unitPrice item) (QuotationItem.subtotal item)
    (Some (or_string (productName (QuotationItem.productId item)) "Unknown Product")).

(** [quotationWithNames]: [{ ...quotation, customerName:
    customers[quotation.customerId]?.name || 'Unknown Customer', items:
    itemsWithNames }]; [customerName id] is what [customers[id]?.name]
    evaluates to. *)
Definition quotationWithNames (customerName productName : string → option string)
    (quotation : Quotation.t) : Quotation.t :=
  Quotation.mk
    (Quotation.id quotation) (Quotation.customerId quotation)
    (Some (or_string (customerName (Quotation.customerId quotation)) "Unknown Customer"))
    (map (itemWithName productName) (Quotation.items quotation))
    (Quotation.totalAmount quotation) (Quotation.validUntil quotation)
    (Quotation.status quotation) (Quotation.notes quotation)
    (Quotation.createdAt quotation).

(** The effect on [customers] and [products]: [if (Object.keys(customers)
    .length > 0 && Object.keys(products).length > 0)], the quotations are
    replaced by [quotations.map(quotationWithNames)]; otherwise the effect
    does nothing ([None]).  [customerKeys] and [productKeys] are the two
    lengths. *)
Definition updateNames (customerKeys productKeys : nat)
    (customerName productName : string → option string) (quotations : list Quotation.t)
  : option (list Quotation.t) :=
  if (0 <? customerKeys)%nat && (0 <? productKeys)%nat
  then Some (map (quotationWithNames customerName productName) quotations)
  else None.

(** [handleSearch(term, quotationsData)]: the value given to
    [setFilteredQuotations]. *)
Definition handleSearch (ops : StringOps) (term : string) (quotationsData : list Quotation.t)
  : list Quotation.t :=
  if String.eqb (trim ops term) "" then quotationsData
  else
    let lowercaseTerm := toLowerCase ops term in
    let matches (text : option string) : bool :=
      from_option (λ t, includes ops (toLowerCase ops t) lowercaseTerm) false text in
    List.filter
      (λ quotation,
         matches (Quotation.customerName quotation)
         || includes ops (toLowerCase ops (Quotation.id quotation)) lowercaseTerm
         || existsb (λ item, matches (QuotationItem.productName item))
                    (Quotation.items quotation))
      quotationsData.

(** [handleDeleteQuotation(quotationId)]. *)
Definition handleDeleteQuotation (quotationId : string) : Js () :=
  try_catch
    (remove_quotation quotationId ;;
     toast deleted)
    (λ _, toast delete_error).

End QuotationList.

(* ===================================================================== *)
(** ** ProductList *)
(* ===================================================================== *)

Module ProductList.

(** [editForm : Omit<Product, 'id' | 'createdAt'>]. *)
Record EditForm := mkEditForm {
  name : string;
  type : string;
  voltage : string;
  rating : string;
  make : string;
  quantity : Z;
  unit : string;
  price : Z
}.

Definition edit_error : Toast :=
  error_toast "Failed to update product. Please try again.".
Definition edited : Toast :=
  success_toast "Product updated successfully".
Definition negative_error : Toast :=
  error_toast "Quantity cannot be negative.".
Definition quantity_error : Toast :=
  error_toast "Failed to update quantity. Please try again.".

(** [handleEditSubmit]: [update(ref(db, `products/${selectedProduct.id}`),
    { ...editForm, updatedAt: serverTimestamp() })]. *)
Definition handleEditSubmit (selectedProduct : option Product.t) (editForm : EditForm)
  : Js () :=
  match selectedProduct with
  | None => mret ()
  | Some selected =>
      try_catch
        (updatedAt ← serverTimestamp ;
         update_product (Product.id selected)
           (Patch.mkProduct
              (Some (name editForm)) (Some (type editForm))
              (Some (voltage editForm)) (Some (rating editForm))
              (Some (make editForm)) (Some (quantity editForm))
              (Some (unit editForm)) (Some (price editForm))
              (Some updatedAt)) ;;
         toast edited)
        (λ _, toast edit_error)
  end.

(** [confirmQuantityChange]: the signed adjustment of the quantity of the
    product the dialog was opened on. *)
Definition confirmQuantityChange (selectedProduct : option Product.t) (quantityChange : Z)
  : Js () :=
  match selectedProduct with
  | None => mret ()
  | Some selected =>
      try_catch
        (let newQuantity := Product.quantity selected + quantityChange in
         if newQuantity <? 0 then toast negative_error
         else
           updatedAt ← serverTimestamp ;
           update_product (Product.id selected)
             (Patch.mkProduct None None None None None (Some newQuantity) None None
                (Some updatedAt)) ;;
           let action := if 0 <? quantityChange then "added to" else "removed from" in
           let amount := Z.abs quantityChange in
           toast (success_toast
                    (pretty amount +:+ " " +:+ Product.unit selected +:+ "(s) "
                     +:+ action +:+ " inventory.")))
        (λ _, toast quantity_error)
  end.

Definition delete_error : Toast :=
  error_toast "Failed to delete product. Please try again.".
Definition deleted : Toast :=
  success_toast "Product deleted successfully".

(** The callback of [onValue(productsRef, ...)]: every child becomes
    [{ id: key, ...data }], and the list is sorted by most recently added. *)
Definition ofSnapshot (snapshot : Snapshot Db.product) : list Product.t :=
  sort_desc Product.createdAt
    (map (λ child,
            Product.mk child.1 (Db.name child.2) (Db.type child.2) (Db.voltage child.2)
              (Db.rating child.2) (Db.make child.2) (Db.quantity child.2) (Db.unit child.2)
              (Db.price child.2) (Db.createdAt child.2))
         snapshot).

(** The effect on [searchTerm], [typeFilter] and [products]: the value given
    to [setFilteredProducts]. *)
Definition filterProducts (ops : StringOps) (searchTerm typeFilter : string)
    (products : list Product.t) : list Product.t :=
  let filtered :=
    if negb (String.eqb typeFilter "all")
    then List.filter (λ product, String.eqb (Product.type product) typeFilter) products
    else products in
  if negb (String.eqb (trim ops searchTerm) "")
  then
    List.filter
      (λ product,
         includes ops (toLowerCase ops (Product.name product)) (toLowerCase ops searchTerm)
         || includes ops (toLowerCase ops (Product.make product)) (toLowerCase ops searchTerm)
         || includes ops (toLowerCase ops (Product.voltage product)) (toLowerCase ops searchTerm)
         || includes ops (toLowerCase ops (Product.rating product)) (toLowerCase ops searchTerm))
      filtered
  else filtered.

(** [handleEditProduct(product)]: the value given to [setEditForm]. *)
Definition handleEditProduct (product : Product.t) : EditForm :=
  mkEditForm
    (Product.name product) (Product.type product) (Product.voltage product)
    (Product.rating product) (Product.make product) (Product.quantity product)
    (Product.unit product) (Product.price product).

(** [confirmDelete]. *)
Definition confirmDelete (selectedProduct : option Product.t) : Js () :=
  match selectedProduct with
  | None => mret ()
  | Some selected =>
      try_catch
        (remove_product (Product.id selected) ;;
         toast deleted)
        (λ _, toast delete_error)
  end.

(** The [disabled] of the "Update Inventory" button: [quantityChange === 0 ||
    ((selectedProduct?.quantity || 0) + quantityChange) < 0]. *)
Definition updateDisabled (selectedProduct : option Product.t) (quantityChange : Z) : bool :=
  (quantityChange =? 0)
  || (or_number (Product.quantity <$> selectedProduct) 0 + quantityChange <? 0).

(** The inputs of the edit dialog: [name], [voltage], [rating] and [make]
    are [required]; the quantity is [<Input type="number" min="0" required
    />] and the price [<Input type="number" min="0" step="0.01" required
    />].  The two selects carry no constraint. *)
Definition editFormValid (editForm : EditForm) : bool :=
  min1 (name editForm) && min1 (voltage editForm) && min1 (rating editForm)
  && min1 (make editForm) && (0 <=? quantity editForm) && (0 <=? price editForm).

(** [<form onSubmit={handleEditSubmit}>] with its button [<Button
    type="submit">]: the handler runs when the inputs satisfy their
    constraints; otherwise the browser shows its validation message and
    fires no [submit] event. *)
Definition submitEditForm (selectedProduct : option Product.t) (editForm : EditForm)
  : Js () :=
  if editFormValid editForm then handleEditSubmit selectedProduct editForm
  else mret ().

End ProductList.

(* ===================================================================== *)
(** ** AuthContext *)
(* ===================================================================== *)

Module AuthContext.

(** [role: 'admin' | 'employee']. *)
Inductive Role := admin | employee.

(** [interface UserData]. *)
Record UserData := mkUserData {
  email : string;
  role : Role;
  name : option string
}.

(** What the provider reads of the [User] of the authentication client. *)
Module User.
Record t := mk {
  uid : string;
  email : option string;
  displayName : option string
}.
End User.

(** The state of the provider, with the collection [users/] it reads and
    writes, the toasts shown and the fault schedule of its store calls (as in
    [World]: one entry per call of [get] or [set], [true] for a call that
    rejects). *)
Record State := mkState {
  users : gmap string UserData;
  currentUser : option User.t;
  userData : option UserData;
  isLoading : bool;
  toasts : list Toast;
  faults : list bool
}.

Definition load_error : Toast :=
  mkToast "Error" "Failed to load user data. Please try again." (Some "destructive").

(** [defaultUserData]: [{ email: user.email || '', role: 'admin', name:
    user.displayName || '' }]. *)
Definition defaultUserData (user : User.t) : UserData :=
  mkUserData (or_string (User.email user) "") admin
    (Some (or_string (User.displayName user) "")).

(** The [catch] of the callback: the toast; [userData] is left as it is. *)
Definition failed (user : option User.t) (rest : list bool) (s : State) : State :=
  mkState (users s) user (userData s) false (toasts s ++ [load_error]) rest.

(** The callback given to [onAuthStateChanged]: [setCurrentUser(user)]; for
    a user, [get(ref(db, `users/${user.uid}`))], then either
    [setUserData(snapshot.val())] or, when the record does not exist,
    [set(userRef, defaultUserData)] and [setUserData(defaultUserData)]; for
    no user, [setUserData(null)]; at the end [setIsLoading(false)]. *)
Definition onAuthStateChanged (user : option User.t) (s : State) : State :=
  match user with
  | None => mkState (users s) None None false (toasts s) (faults s)
  | Some u =>
      match faults s with
      | true :: rest => failed user rest s
      | afterGet =>
          let afterGet := tail afterGet in
          match users s !! User.uid u with
          | Some data => mkState (users s) user (Some data) false (toasts s) afterGet
          | None =>
              match afterGet with
              | true :: rest => failed user rest s
              | afterSet =>
                  mkState (<[User.uid u := defaultUserData u]> (users s)) user
                    (Some (defaultUserData u)) false (toasts s) (tail afterSet)
              end
          end
      end
  end.

(** [isAdmin: userData?.role === 'admin']. *)
Definition isAdmin (s : State) : bool :=
  match userData s with
  | Some data => match role data with admin => true | employee => false end
  | None => false
  end.

End AuthContext.

(* ===================================================================== *)
(** ** StatsOverview *)
(* ===================================================================== *)

Module StatsOverview.

(** [Object.keys(snapshot.val()).length], and 0 for a snapshot that does not
    exist: the counts of customers, products, quotations and invoices. *)
Definition count {V} (snapshot : Snapshot V) : Z := Z.of_nat (length snapshot).

(** [categories]: [productKeys.forEach(key => { const type =
    products[key].type || 'Other'; categories[type] = (categories[type] || 0)
    + 1 })].  [categories] is a plain object: under a name that every object
    inherits ([constructor], [toString], [__proto__], ...) it holds that
    member and no counter, and what the assignment does there is not a
    count.  [inherited] tells these names; at a product whose type is one of
    them the model stops, with [None]. *)
Definition categories (inherited : string → bool) (snapshot : Snapshot Db.product)
  : option (gmap string Z) :=
  fold_left
    (λ counted child,
       match counted with
       | Some categories =>
           let type := or_string (Some (Db.type child.2)) "Other" in
           if inherited type then None
           else Some (<[type := or_number (categories !! type) 0 + 1]> categories)
       | None => None
       end)
    snapshot (Some ∅).

(** [categoryData = Object.keys(categories).map(key => ({ name: key, value:
    categories[key] }))]; the order of the keys is not modelled. *)
Definition productsByCategory (inherited : string → bool) (snapshot : Snapshot Db.product)
  : option (list (string * Z)) :=
  map_to_list <$> categories inherited snapshot.

End StatsOverview.

(* ===================================================================== *)
(** ** Amounts *)
(* ===================================================================== *)

(** The totals of the program, over the arithmetic they are computed in. *)
Module Amounts.

Section Arithmetic.

Context {N : Type} `{Number.t N}.

(** [x || 0] on a number. *)
Definition or_zero (x : N) : N := if Number.truthy x then x else Number.zero.

(** QuotationForm, the effect that follows [quotationItems]: [let sum = 0;
    quotationItems.forEach(item => { if (item.product) sum +=
    item.product.price * item.quantity }); setTotal(sum)].  A line is given
    by the price of its product, [None] for a line without product, and by
    its quantity. *)
Definition total (lines : list (option N * N)) : N :=
  fold_left
    (λ sum line,
       match line.1 with
       | Some price => Number.add sum (Number.mul price line.2)
       | None => sum
       end)
    lines Number.zero.

(** InvoiceGenerator.onSubmit: [let totalAmount = quotation.totalAmount; if
    (data.additionalItems && data.additionalItems.length > 0) {
    data.additionalItems.forEach(item => { totalAmount += item.amount }) }],
    over the total of the quotation and the amounts of the additional
    items. *)
Definition totalAmount (quotationTotal : N) (additionalItems : option (list N)) : N :=
  match additionalItems with
  | Some amounts =>
      if (0 <? length amounts)%nat then fold_left Number.add amounts quotationTotal
      else quotationTotal
  | None => quotationTotal
  end.

(** StatsOverview: [let totalSales = 0; invoiceKeys.forEach(key => { const
    invoice = invoices[key]; if (invoice.status !== 'cancelled') {
    totalSales += invoice.totalAmount || 0 } })], over the status and the
    total of every invoice, in the order of the keys. *)
Definition totalSales (invoices : list (InvoiceStatus * N)) : N :=
  fold_left
    (λ totalSales invoice,
       match invoice.1 with
       | cancelled => totalSales
       | _ => Number.add totalSales (or_zero invoice.2)
       end)
    invoices Number.zero.

End Arithmetic.

End Amounts.

(* ===================================================================== *)
(** ** Vocabulary of the statements *)
(* ===================================================================== *)

(** The sum of a list of numbers, as the specification writes it. *)
Definition sumZ (l : list Z) : Z := foldr Z.add 0 l.

(** The world a handler leaves behind. *)
Definition after {A} (m : Js A) (w : World) : World := snd (m w).

(** The store call that comes next does not fail. *)
Definition next_call_ok (w : World) : Prop := head (faults w) ≠ Some true.

Global Instance next_call_ok_dec w : Decision (next_call_ok w).
Proof. unfold next_call_ok. apply _. Defined.

(** A line that passes the three checks of the validation loop. *)
Definition line_ok (products : list Product.t) (item : QuotationForm.QuotationItem) : Prop :=
  QuotationForm.productId item ≠ "" ∧
  ∃ p, QuotationForm.findProduct products (QuotationForm.productId item) = Some p
       ∧ QuotationForm.quantity item ≤ Product.quantity p.

(** The world after an accepted quotation request: one record under a new
    key, one toast, one store call consumed. *)
Definition accepted_world (data : QuotationFormValues.t)
    (quotationItems : list QuotationForm.QuotationItem) (w : World) : World :=
  mkWorld
    (Db.with_quotations
       (insert (fresh (dom (Db.quotations (db w))))
               (QuotationForm.quotationData data quotationItems (now w)))
       (db w))
    (toasts w ++ [QuotationForm.created]) (tail (faults w)) (now w) (isSubmitting w)
    (alerts w).

(** The store once the invoice record of a quotation is pushed. *)
Definition pushed_store (quotation : Quotation.t) (invoiceType : InvoiceType)
    (data : InvoiceFormValues.t) (c : Customer.t) (w : World) : Db.t :=
  Db.with_invoices
    (insert (fresh (dom (Db.invoices (db w))))
            (InvoiceGenerator.invoiceData quotation (Customer.id c) invoiceType data (now w)))
    (db w).

(** The second store call of generate-invoice fails: on its own, or because
    the quotation is gone from the store. *)
Definition update_fails (quotation : Quotation.t) (w : World) : Prop :=
  faults w !! 1%nat = Some true ∨ Db.quotations (db w) !! Quotation.id quotation = None.

(** The partial record of an inventory adjustment. *)
Definition adjustment (newQuantity updatedAt : Z) : Patch.product :=
  Patch.mkProduct None None None None None (Some newQuantity) None None (Some updatedAt).

(** A line whose attached product is the one [products.find] gives for its
    [productId] (or a line still blank): what [addQuotationItem] and
    [updateQuotationItem] build. *)
Definition coherent (products : list Product.t) (item : QuotationForm.QuotationItem) : Prop :=
  (QuotationForm.productId item = "" ∧ QuotationForm.product item = None)
  ∨ QuotationForm.product item
    = QuotationForm.findProduct products (QuotationForm.productId item).

(** A snapshot of a collection: its records, each once, in some order. *)
Definition represents {V} (snapshot : Snapshot V) (collection : gmap string V) : Prop :=
  snapshot ≡ₚ map_to_list collection.

(** The in-memory product of a stored record. *)
Definition productOf (key : string) (r : Db.product) : Product.t :=
  Product.mk key (Db.name r) (Db.type r) (Db.voltage r) (Db.rating r) (Db.make r)
    (Db.quantity r) (Db.unit r) (Db.price r) (Db.createdAt r).

(** Newest first. *)
Definition newest_first {A} (createdAt : A → Z) (l : list A) : Prop :=
  StronglySorted (λ a b, createdAt b ≤ createdAt a) l.

(** The same line up to the display name. *)
Definition same_amounts (i j : QuotationItem.t) : Prop :=
  QuotationItem.productId i = QuotationItem.productId j
  ∧ QuotationItem.quantity i = QuotationItem.quantity j
  ∧ QuotationItem.unitPrice i = QuotationItem.unitPrice j
  ∧ QuotationItem.subtotal i = QuotationItem.subtotal j.

(** The sum of the counters of a record of categories. *)
Definition category_total (categories : gmap string Z) : Z :=
  sumZ (map snd (map_to_list categories)).

(** Numbers added up from [0], in the order of the list. *)
Definition added_up {N} `{Number.t N} (l : list N) : N :=
  fold_left Number.add l Number.zero.

(** An arithmetic whose addition is exact: associative and commutative,
    with [0] neutral.  The integers are one; the doubles are not. *)
Definition exact_addition (N : Type) `{Number.t N} : Prop :=
  (∀ x y z : N, Number.add (Number.add x y) z = Number.add x (Number.add y z))
  ∧ (∀ x y : N, Number.add x y = Number.add y x)
  ∧ (∀ x : N, Number.add Number.zero x = x).

(** Price times quantity, for the lines that carry a product. *)
Definition subtotals {N} `{Number.t N} (lines : list (option N * N)) : list N :=
  omap (λ line, (λ price, Number.mul price line.2) <$> line.1) lines.

(** The lines of the quotation form as [Amounts.total] reads them. *)
Definition priced (quotationItems : list QuotationForm.QuotationItem)
  : list (option Z * Z) :=
  map (λ item, (Product.price <$> QuotationForm.product item, QuotationForm.quantity item))
      quotationItems.

(** The amounts of the additional items of an invoice form. *)
Definition amounts (data : InvoiceFormValues.t) : option (list Z) :=
  map AdditionalItem.amount <$> InvoiceFormValues.additionalItems data.

(** A line that carries a product. *)
Definition with_product {N} (line : option N * N) : bool :=
  match line.1 with Some _ => true | None => false end.

(** An invoice that counts in the total sales. *)
Definition counted {N} (invoice : InvoiceStatus * N) : bool :=
  match invoice.1 with cancelled => false | _ => true end.

(** The type a product is counted under. *)
Definition category (child : string * Db.product) : string :=
  or_string (Some (Db.type child.2)) "Other".

(** Sample data, shared by the examples below: the scenario of the
    specification (two products, one customer) and some stores. *)
Module Sample.

Definition productA : Product.t :=
  Product.mk "pA" "Panel" "solar_panel" "24" "330W" "Acme" 5 "piece" 100 1.
Definition productB : Product.t :=
  Product.mk "pB" "Inverter" "inverter" "48" "5kVA" "Volt" 3 "piece" 50 2.
Definition products : list Product.t := [productA; productB].

Definition ann : Customer.t := Customer.mk "c1" "Ann" "ann@example.org" "1 Main St" "Pune" "555".

Definition values : QuotationFormValues.t := QuotationFormValues.mk "c1" "2026-01-01" None.

Definition lineA : QuotationForm.QuotationItem := QuotationForm.mkItem "pA" 2 (Some productA).
Definition lineB : QuotationForm.QuotationItem := QuotationForm.mkItem "pB" 1 (Some productB).

Definition itemsAB : list QuotationItem.t :=
  [QuotationItem.mk "pA" 2 100 200 None; QuotationItem.mk "pB" 1 50 50 None].

(** The stored quotation [q1] of customer [c1], in a given status. *)
Definition stored (s : QuotationStatus) : Db.quotation :=
  Db.mkQuotation "c1" "2026-01-01" None itemsAB 250 s 5.
Definition quotation (s : QuotationStatus) : Quotation.t :=
  Quotation.mk "q1" "c1" (Some "Ann") itemsAB 250 "2026-01-01" s None 5.

Definition storedA : Db.product :=
  Db.mkProduct "Panel" "solar_panel" "24" "330W" "Acme" 5 "piece" 100 1 None.

Definition store (s : QuotationStatus) : Db.t :=
  Db.mk {["pA" := storedA]} {["q1" := stored s]} ∅.

Definition world (s : QuotationStatus) (faults : list bool) : World :=
  mkWorld (store s) [] faults 1000 false [].

Definition empty_world : World := mkWorld (Db.mk ∅ ∅ ∅) [] [] 1000 false [].

Definition installation : InvoiceFormValues.t :=
  InvoiceFormValues.mk "INV-000001" "2026-01-02" "100% advance payment" None None
    (Some [AdditionalItem.mk "Installation" 75]).

Definition plain : InvoiceFormValues.t :=
  InvoiceFormValues.mk "INV-000002" "2026-01-02" "100% advance payment" None None (Some []).

(** Three lines of quantity 1, at the prices 0.1, 0.2 and 0.3, in the
    doubles of the program; and the same lines, the other way round. *)
Definition cents : list (option float * float) :=
  [(Some 0.1, 1); (Some 0.2, 1); (Some 0.3, 1)]%float.
Definition cents_reversed : list (option float * float) :=
  [(Some 0.3, 1); (Some 0.2, 1); (Some 0.1, 1)]%float.

(** A quotation total with decimals, and the amounts of two additional
    items. *)
Definition decimal_total : float := 1000.11%float.
Definition two_extras : list float := [1500; 2500]%float.

End Sample.

(* ===================================================================== *)
(** ** Lemmas on sums and on the store *)
(* ===================================================================== *)

Section Sums.

Context {A : Type} (f : A → Z).

Lemma fold_left_add (l : list A) (a : Z) :
  fold_left (λ acc x, acc + f x) l a = a + sumZ (map f l).
Proof.
  revert a. induction l as [|x l IH]; intros a; simpl.
  - lia.
  - rewrite IH. unfold sumZ. simpl. lia.
Qed.

Lemma sumZ_map_perm (l l' : list A) :
  Permutation l l' → sumZ (map f l) = sumZ (map f l').
Proof.
  induction 1 as [|x l l' _ IH|x y l|l l' l'' _ IH1 _ IH2]; unfold sumZ in *; simpl.
  - reflexivity.
  - now rewrite IH.
  - lia.
  - now rewrite IH1.
Qed.

End Sums.

Lemma or_number_zero (v : Z) : or_number (Some v) 0 = v.
Proof. unfold or_number. destruct (Z.eqb_spec v 0); congruence. Qed.

(** A generated key is new in its collection. *)
Lemma fresh_lookup {V} (m : gmap string V) : m !! fresh (dom m) = None.
Proof. apply not_elem_of_dom, is_fresh. Qed.

(* ===================================================================== *)
(** ** Lemmas on amounts *)
(* ===================================================================== *)

Section AmountsLemmas.

Context {N : Type} `{Number.t N}.

(** A fold whose steps commute does not depend on the order of the list. *)
Lemma fold_left_permutation {A} (f : N → A → N) (l l' : list A) :
  (∀ a x y, f (f a x) y = f (f a y) x) →
  Permutation l l' → ∀ a, fold_left f l a = fold_left f l' a.
Proof.
  intros Hswap. induction 1 as [|x l l' _ IH|x y l|l l' l'' _ IH1 _ IH2]; intros a; simpl.
  - reflexivity.
  - apply IH.
  - now rewrite Hswap.
  - now rewrite IH1.
Qed.

(** The running total adds up, from the left, the subtotals of the lines
    that carry a product: this holds in every arithmetic. *)
Lemma total_added_up_from (lines : list (option N * N)) (a : N) :
  fold_left
    (λ sum line,
       match line.1 with
       | Some price => Number.add sum (Number.mul price line.2)
       | None => sum
       end)
    lines a
  = fold_left Number.add (subtotals lines) a.
Proof.
  revert a. induction lines as [|[[price|] quantity] rest IH]; intros a; simpl.
  - reflexivity.
  - apply IH.
  - apply IH.
Qed.

Lemma total_added_up (lines : list (option N * N)) :
  Amounts.total lines = added_up (subtotals lines).
Proof. apply total_added_up_from. Qed.

Lemma subtotals_filter (lines : list (option N * N)) :
  subtotals (List.filter with_product lines) = subtotals lines.
Proof.
  induction lines as [|[[price|] quantity] rest IH]; simpl; [reflexivity| |exact IH].
  unfold subtotals in *. simpl. now rewrite IH.
Qed.

Lemma subtotals_app (l1 l2 : list (option N * N)) :
  subtotals (l1 ++ l2) = subtotals l1 ++ subtotals l2.
Proof. apply omap_app. Qed.

Lemma subtotals_delete (lines : list (option N * N)) (index : nat) (quantity : N) :
  lines !! index = Some (None, quantity) →
  subtotals (delete index lines) = subtotals lines.
Proof.
  revert index. induction lines as [|[price q] rest IH]; intros [|index] Hi; simpl in *;
    try discriminate.
  - injection Hi as -> ->. reflexivity.
  - unfold subtotals in *. simpl. destruct price; simpl; now rewrite (IH index Hi).
Qed.

(** With an exact addition the running total does not depend on the order
    of the lines. *)
Lemma total_permutation (lines lines' : list (option N * N)) :
  exact_addition N → Permutation lines lines' → Amounts.total lines' = Amounts.total lines.
Proof.
  intros (Hassoc & Hcomm & _) Hperm. symmetry. unfold Amounts.total.
  apply fold_left_permutation; [|exact Hperm].
  intros a [[x|] qx] [[y|] qy]; simpl; try reflexivity.
  rewrite !Hassoc. f_equal. apply Hcomm.
Qed.

(** With an exact addition, adding a list to [q] item by item is adding its
    sum to [q]. *)
Lemma fold_left_added_up (l : list N) (q : N) :
  exact_addition N → fold_left Number.add l q = Number.add q (added_up l).
Proof.
  intros (Hassoc & Hcomm & Hzero). unfold added_up. revert q.
  induction l as [|x l IH]; intros q; simpl.
  - now rewrite Hcomm, Hzero.
  - rewrite (IH (Number.add q x)), Hzero, (IH x). apply Hassoc.
Qed.

(** Cancelled invoices are skipped, in every arithmetic. *)
Lemma totalSales_counted_from (invoices : list (InvoiceStatus * N)) (a : N) :
  fold_left
    (λ totalSales invoice,
       match invoice.1 with
       | cancelled => totalSales
       | _ => Number.add totalSales (Amounts.or_zero invoice.2)
       end)
    (List.filter counted invoices) a
  = fold_left
      (λ totalSales invoice,
         match invoice.1 with
         | cancelled => totalSales
         | _ => Number.add totalSales (Amounts.or_zero invoice.2)
         end)
      invoices a.
Proof.
  revert a. induction invoices as [|[[] amount] rest IH]; intros a; simpl;
    [reflexivity | apply IH | apply IH | apply IH].
Qed.

End AmountsLemmas.

(** The total of the form is [Amounts.total] on the integers. *)
Lemma QuotationForm_total_priced (quotationItems : list QuotationForm.QuotationItem) :
  QuotationForm.total quotationItems = Amounts.total (priced quotationItems).
Proof.
  unfold QuotationForm.total, Amounts.total, priced.
  change (@Number.zero Z exact) with 0. generalize 0.
  induction quotationItems as [|[pid q [p|]] rest IH]; intros a; simpl;
    [reflexivity | apply IH | apply IH].
Qed.

(** The total of an invoice, as the loop of [onSubmit] folds it. *)
Lemma InvoiceGenerator_totalAmount_fold (quotation : Quotation.t) (data : InvoiceFormValues.t) :
  InvoiceGenerator.totalAmount quotation data
  = fold_left (λ totalAmount item, totalAmount + AdditionalItem.amount item)
      (default [] (InvoiceFormValues.additionalItems data)) (Quotation.totalAmount quotation).
Proof.
  unfold InvoiceGenerator.totalAmount.
  now destruct (InvoiceFormValues.additionalItems data) as [[|item rest]|].
Qed.

(** The total of an invoice is [Amounts.totalAmount] on the integers. *)
Lemma InvoiceGenerator_totalAmount_amounts (quotation : Quotation.t)
    (data : InvoiceFormValues.t) :
  InvoiceGenerator.totalAmount quotation data
  = Amounts.totalAmount (Quotation.totalAmount quotation) (amounts data).
Proof.
  unfold InvoiceGenerator.totalAmount, Amounts.totalAmount, amounts.
  destruct (InvoiceFormValues.additionalItems data) as [items|]; simpl; [|reflexivity].
  rewrite length_map. destruct (0 <? length items)%nat; [|reflexivity].
  generalize (Quotation.totalAmount quotation).
  induction items as [|item rest IH]; intros a; simpl; [reflexivity | apply IH].
Qed.

(** The integers are an exact arithmetic. *)
Lemma exact_addition_Z : exact_addition Z.
Proof. repeat split; intros; simpl; lia. Qed.

(* ===================================================================== *)
(** ** QuotationForm: how [onSubmit] runs *)
(* ===================================================================== *)

Section QuotationFormRuns.

Import QuotationForm.

Variables (products : list Product.t) (data : QuotationFormValues.t).

Ltac run :=
  cbv [onSubmit try_catch mbind js_bind bind mret js_ret ret toast modify gets
       serverTimestamp push_quotation io_call throw].

Lemma onSubmit_rejected (quotationItems : list QuotationItem) (t : Toast) (w : World) :
  quotationItems ≠ [] →
  validateItems products quotationItems = Some t →
  onSubmit products quotationItems data w
  = (Normal quotationItems, set_toasts (λ l, l ++ [t]) w).
Proof.
  intros Hne Hv. run. rewrite Hv.
  destruct quotationItems; [congruence | reflexivity].
Qed.

Lemma onSubmit_accepted (quotationItems : list QuotationItem) (w : World) :
  quotationItems ≠ [] →
  validateItems products quotationItems = None →
  next_call_ok w →
  onSubmit products quotationItems data w
  = (Normal [], accepted_world data quotationItems w).
Proof.
  intros Hne Hv Hok. run. rewrite Hv.
  destruct quotationItems as [|item rest]; [congruence|]. simpl.
  unfold next_call_ok in Hok. destruct w as [d ts fs n s al]; simpl in *.
  destruct fs as [|[] fs]; simpl in *; try congruence; reflexivity.
Qed.

Lemma onSubmit_store_error (quotationItems : list QuotationItem) (w : World) (fs : list bool) :
  quotationItems ≠ [] →
  validateItems products quotationItems = None →
  faults w = true :: fs →
  onSubmit products quotationItems data w
  = (Normal quotationItems,
     set_toasts (λ l, l ++ [create_error]) (set_faults (λ _, fs) w)).
Proof.
  intros Hne Hv Hf. destruct w as [d ts fs' n s al]; simpl in Hf; subst fs'.
  run. rewrite Hv.
  destruct quotationItems; [congruence | reflexivity].
Qed.

(** The loop accepts exactly the lists whose lines all pass the checks. *)
Lemma validateItems_None (quotationItems : list QuotationItem) :
  validateItems products quotationItems = None ↔ Forall (line_ok products) quotationItems.
Proof.
  induction quotationItems as [|item rest IH]; simpl.
  - split; [constructor | reflexivity].
  - destruct (String.eqb_spec (productId item) "") as [He|He].
    + split; [discriminate|]. intros H. inversion H as [|? ? [Hn _] _]. congruence.
    + destruct (findProduct products (productId item)) as [p|] eqn:Hf.
      * destruct (Z.ltb_spec (Product.quantity p) (quantity item)) as [Hlt|Hle].
        -- split; [discriminate|]. intros H.
           inversion H as [|? ? (_ & p' & Hp' & Hq) _]. rewrite Hf in Hp'.
           injection Hp' as <-. lia.
        -- rewrite IH. split.
           ++ intros Hr. constructor; [|exact Hr]. split; [exact He|]. exists p. now rewrite Hf.
           ++ intros H. now inversion H.
      * split; [discriminate|]. intros H.
        inversion H as [|? ? (_ & p' & Hp' & _) _]. rewrite Hf in Hp'. discriminate.
Qed.

(** A rejection is always an "Error" toast. *)
Lemma validateItems_error (quotationItems : list QuotationItem) (t : Toast) :
  validateItems products quotationItems = Some t → title t = "Error".
Proof.
  induction quotationItems as [|item rest IH]; simpl; [discriminate|].
  destruct (String.eqb (productId item) ""); [now intros [= <-]|].
  destruct (findProduct products (productId item)) as [p|]; [|now intros [= <-]].
  destruct (Product.quantity p <? quantity item); [now intros [= <-] | exact IH].
Qed.


(** The loop is sequential: after a prefix that passes, the verdict is that
    of the rest. *)
Lemma validateItems_app (pre rest : list QuotationItem) :
  validateItems products pre = None →
  validateItems products (pre ++ rest) = validateItems products rest.
Proof.
  induction pre as [|item pre IH]; simpl; [reflexivity|].
  destruct (String.eqb (productId item) ""); [discriminate|].
  destruct (findProduct products (productId item)) as [p|]; [|discriminate].
  destruct (Product.quantity p <? quantity item); [discriminate | exact IH].
Qed.

End QuotationFormRuns.

(** Either [onSubmit] writes nothing, or it took the accepting path. *)
Lemma QuotationForm_onSubmit_cases (products : list Product.t)
    (quotationItems : list QuotationForm.QuotationItem)
    (data : QuotationFormValues.t) (w : World) :
  db (after (QuotationForm.onSubmit products quotationItems data) w) = db w
  ∨ (quotationItems ≠ []
     ∧ QuotationForm.validateItems products quotationItems = None
     ∧ QuotationForm.onSubmit products quotationItems data w
       = (Normal [], accepted_world data quotationItems w)).
Proof.
  unfold after.
  destruct quotationItems as [|item rest] eqn:Hitems; [now left|]. rewrite <- Hitems.
  assert (Hne : quotationItems ≠ []) by (subst; discriminate).
  destruct (QuotationForm.validateItems products quotationItems) as [t|] eqn:Hv.
  - left. now rewrite (onSubmit_rejected products data quotationItems t w Hne Hv).
  - destruct (faults w) as [|[] fs] eqn:Hf.
    + right. repeat split; try assumption.
      apply onSubmit_accepted; try assumption. unfold next_call_ok. now rewrite Hf.
    + left. now rewrite (onSubmit_store_error products data quotationItems w fs Hne Hv Hf).
    + right. repeat split; try assumption.
      apply onSubmit_accepted; try assumption. unfold next_call_ok. now rewrite Hf.
Qed.

(** A record that [onSubmit] adds holds the stored lines and the running
    total of the form. *)
Lemma totalAmount_written (products : list Product.t)
    (quotationItems : list QuotationForm.QuotationItem)
    (data : QuotationFormValues.t) (w : World) (k : string) (r : Db.quotation) :
  Db.quotations (db w) !! k = None →
  Db.quotations (db (after (QuotationForm.onSubmit products quotationItems data) w)) !! k
  = Some r →
  Db.items r = map QuotationForm.storedItem quotationItems
  ∧ Db.totalAmount r = QuotationForm.total quotationItems.
Proof.
  intros Hold Hnew.
  destruct (QuotationForm_onSubmit_cases products quotationItems data w)
    as [Hsame | (_ & _ & Hrun)].
  { rewrite Hsame in Hnew. congruence. }
  unfold after in Hnew. rewrite Hrun in Hnew. simpl in Hnew.
  destruct (decide (k = fresh (dom (Db.quotations (db w))))) as [->|Hk].
  2:{ rewrite lookup_insert_ne in Hnew by congruence. congruence. }
  rewrite lookup_insert_eq in Hnew. injection Hnew as <-. now split.
Qed.

(* ===================================================================== *)
(** ** QuotationForm: the form and its inputs *)
(* ===================================================================== *)

(** No input is reported exactly when every quantity input is valid. *)
Lemma firstInvalid_None (products : list Product.t)
    (quotationItems : list QuotationForm.QuotationItem) :
  QuotationForm.firstInvalid products quotationItems = None
  ↔ Forall (λ item, QuotationForm.quantityInputValid products item = true) quotationItems.
Proof.
  induction quotationItems as [|item rest IH]; simpl.
  - split; [constructor | reflexivity].
  - destruct (QuotationForm.quantityInputValid products item) eqn:Hv.
    + destruct (QuotationForm.firstInvalid products rest) as [index|]; simpl.
      * split; [discriminate|]. intros Hall. inversion Hall as [|? ? _ Hrest].
        apply IH in Hrest. discriminate.
      * split; [|reflexivity]. intros _. constructor; [exact Hv | now apply IH].
    + split; [discriminate|]. intros Hall. inversion Hall. congruence.
Qed.

(** The input reported is that of a line of the form, and is not valid. *)
Lemma firstInvalid_Some (products : list Product.t)
    (quotationItems : list QuotationForm.QuotationItem) (index : nat) :
  QuotationForm.firstInvalid products quotationItems = Some index →
  ∃ line, quotationItems !! index = Some line
          ∧ QuotationForm.quantityInputValid products line = false.
Proof.
  revert index. induction quotationItems as [|item rest IH]; intros index; simpl;
    [discriminate|].
  destruct (QuotationForm.quantityInputValid products item) eqn:Hv.
  - destruct (QuotationForm.firstInvalid products rest) as [i|]; simpl; [|discriminate].
    intros [= <-]. exact (IH i eq_refl).
  - intros [= <-]. exists item. now split.
Qed.

(** A quantity below 1 makes the input of its line invalid. *)
Lemma quantityInputValid_positive (products : list Product.t)
    (item : QuotationForm.QuotationItem) :
  QuotationForm.quantityInputValid products item = true → 1 ≤ QuotationForm.quantity item.
Proof.
  unfold QuotationForm.quantityInputValid. intros Hv.
  apply andb_true_iff in Hv as [Hmin _]. lia.
Qed.

(** A click on the button leaves the world as it is, or every quantity
    input is valid and the world is the one [onSubmit] leaves. *)
Lemma QuotationForm_submit_cases (products : list Product.t)
    (quotationItems : list QuotationForm.QuotationItem)
    (data : QuotationFormValues.t) (w : World) :
  after (QuotationForm.submit products quotationItems data) w = w
  ∨ (Forall (λ item, QuotationForm.quantityInputValid products item = true) quotationItems
     ∧ after (QuotationForm.submit products quotationItems data) w
       = after (QuotationForm.onSubmit products quotationItems data) w).
Proof.
  unfold after, QuotationForm.submit.
  destruct (length quotationItems =? 0)%nat; [now left|].
  destruct (QuotationForm.firstInvalid products quotationItems) as [index|] eqn:Hf;
    [now left|].
  destruct (QuotationForm.quotationSchema data); [|now left].
  right. split; [now apply firstInvalid_None|].
  unfold mbind, js_bind, bind.
  now destruct (QuotationForm.onSubmit products quotationItems data w) as [[left|e] w'].
Qed.

(* ===================================================================== *)
(** ** QuotationForm: the claims *)
(* ===================================================================== *)

(** C9.  A quotation-creation request with an empty line-item list is
    rejected with the "empty quotation" error ("Please add at least one
    product to the quotation") and nothing is written: the store is
    unchanged and no store call is even attempted. *)
Theorem empty_quotation_rejected (products : list Product.t)
    (data : QuotationFormValues.t) (w : World) :
  let w' := after (QuotationForm.onSubmit products [] data) w in
  toasts w' = toasts w ++ [QuotationForm.empty_error]
  ∧ QuotationForm.empty_error
    = mkToast "Error" "Please add at least one product to the quotation" (Some "destructive")
  ∧ db w' = db w
  ∧ faults w' = faults w.
Proof. repeat split. Qed.

(** C4, as the code has it.  Every quotation record that [onSubmit] creates
    stores the lines at the prices supplied, each subtotal being unitPrice *
    quantity, and as totalAmount the running total of the form, which adds
    up price * quantity over the lines, from 0 and in the order of the
    lines (in every arithmetic, the doubles of the program included).  In an
    arithmetic whose addition is exact (associative and commutative, as on
    the integers) the total of any permutation of the lines is the same.  In
    the doubles of the program the additions round, and the total depends
    on the order of the lines. *)
Theorem totalAmount_is_running_total (products : list Product.t)
    (quotationItems : list QuotationForm.QuotationItem)
    (data : QuotationFormValues.t) (w : World) (k : string) (r : Db.quotation) :
  Db.quotations (db w) !! k = None →
  Db.quotations (db (after (QuotationForm.onSubmit products quotationItems data) w)) !! k
  = Some r →
  Db.items r = map QuotationForm.storedItem quotationItems
  ∧ Forall (λ i, QuotationItem.subtotal i = QuotationItem.unitPrice i * QuotationItem.quantity i)
           (Db.items r)
  ∧ Db.totalAmount r = QuotationForm.total quotationItems
  ∧ QuotationForm.total quotationItems = Amounts.total (priced quotationItems)
  ∧ ∀ (N : Type) (arithmetic : Number.t N) (lines : list (option N * N)),
      Amounts.total lines = added_up (subtotals lines)
      ∧ (exact_addition N →
         ∀ lines', Permutation lines lines' → Amounts.total lines' = Amounts.total lines).
Proof.
  intros Hold Hnew.
  destruct (totalAmount_written products quotationItems data w k r Hold Hnew)
    as [Hitems Htotal].
  split; [exact Hitems|]. split; [|split; [exact Htotal|split]].
  - rewrite Hitems. apply Forall_forall. intros i Hi.
    apply list_elem_of_In, in_map_iff in Hi. destruct Hi as (x & <- & _). reflexivity.
  - apply QuotationForm_total_priced.
  - intros N arithmetic lines. split; [apply total_added_up|].
    intros Hexact lines' Hperm. now apply total_permutation.
Qed.

Lemma totalAmount_is_running_total_witness :
  let items := [Sample.lineA; Sample.lineB] in
  let r := Db.mkQuotation "c1" "2026-01-01" None Sample.itemsAB 250 pending 1000 in
  Db.quotations (db Sample.empty_world) !! "0" = None
  ∧ Db.quotations
      (db (after (QuotationForm.onSubmit Sample.products items Sample.values)
                 Sample.empty_world)) !! "0" = Some r
  ∧ Db.totalAmount r = Amounts.total (priced items)
  ∧ Amounts.total (priced items) = 250
  ∧ Amounts.total (priced [Sample.lineB; Sample.lineA]) = Amounts.total (priced items)
  ∧ Amounts.total [(Some 100, 2); (Some 50, 1)]%float = 250%float
  ∧ Amounts.total [(Some 50, 1); (Some 100, 2)]%float = 250%float.
Proof.
  intros items r.
  assert (H0 : Db.quotations (db Sample.empty_world) !! "0" = None) by reflexivity.
  assert (H1 : Db.quotations
      (db (after (QuotationForm.onSubmit Sample.products items Sample.values)
                 Sample.empty_world)) !! "0" = Some r) by (vm_compute; reflexivity).
  destruct (totalAmount_is_running_total Sample.products items Sample.values
              Sample.empty_world "0" r H0 H1) as (_ & _ & Htotal & Hpriced & Hany).
  destruct (Hany Z exact (priced items)) as [_ Hperm].
  split; [exact H0|]. split; [exact H1|]. split; [now rewrite Htotal, Hpriced|].
  split; [reflexivity|]. split; [|split; reflexivity].
  apply (Hperm exact_addition_Z). apply perm_swap.
Defined.

(** C4, as stated, fails: three lines of quantity 1 at the prices 0.1, 0.2
    and 0.3 have the running total 0.6000000000000001; the same lines the
    other way round have the running total 0.6. *)
Lemma total_depends_on_line_order :
  Permutation Sample.cents Sample.cents_reversed
  ∧ Amounts.total Sample.cents = 0.6000000000000001%float
  ∧ Amounts.total Sample.cents_reversed = 0.6%float
  ∧ PrimFloat.eqb (Amounts.total Sample.cents) (Amounts.total Sample.cents_reversed) = false.
Proof.
  split; [|repeat split].
  change Sample.cents_reversed with (rev Sample.cents). apply Permutation_rev.
Qed.

(** C3.  A click on "Create Quotation" on a form with a line whose quantity
    is zero or negative is rejected: the browser reports the quantity input
    of a line that does not satisfy its constraints, [onSubmit] is not
    called, and nothing is written nor shown in a toast.  So every quotation
    record written through the form has quantities of 1 at least; and the
    quantity input never stores the quantity 0. *)
Theorem nonpositive_quantity_rejected (products : list Product.t)
    (quotationItems : list QuotationForm.QuotationItem)
    (data : QuotationFormValues.t) (w : World) :
  (∀ item, item ∈ quotationItems → QuotationForm.quantity item ≤ 0 →
     ∃ index line,
       QuotationForm.submit products quotationItems data w
       = (Normal (QuotationForm.InputInvalid index), w)
       ∧ quotationItems !! index = Some line
       ∧ QuotationForm.quantityInputValid products line = false)
  ∧ (∀ k r,
       Db.quotations (db w) !! k = None →
       Db.quotations (db (after (QuotationForm.submit products quotationItems data) w)) !! k
       = Some r →
       Db.items r = map QuotationForm.storedItem quotationItems
       ∧ Forall (λ i, 1 ≤ QuotationItem.quantity i) (Db.items r))
  ∧ (∀ parsed, QuotationForm.quantityOfInput parsed ≠ 0).
Proof.
  split; [|split].
  - intros item Hin Hq.
    destruct (QuotationForm.firstInvalid products quotationItems) as [index|] eqn:Hf.
    + destruct (firstInvalid_Some products quotationItems index Hf) as (line & Hl & Hv).
      exists index, line. split; [|now split].
      unfold QuotationForm.submit. rewrite Hf.
      destruct quotationItems; [inversion Hin | reflexivity].
    + exfalso. apply firstInvalid_None in Hf. rewrite Forall_forall in Hf.
      apply Hf, quantityInputValid_positive in Hin. lia.
  - intros k r Hold Hnew.
    destruct (QuotationForm_submit_cases products quotationItems data w)
      as [Hsame | [Hvalid Hrun]].
    { rewrite Hsame in Hnew. congruence. }
    rewrite Hrun in Hnew.
    destruct (totalAmount_written products quotationItems data w k r Hold Hnew)
      as [Hitems _].
    split; [exact Hitems|]. rewrite Hitems. apply Forall_map.
    eapply Forall_impl; [exact Hvalid|]. intros item Hv. simpl.
    now apply quantityInputValid_positive in Hv.
  - intros [v|]; unfold QuotationForm.quantityOfInput, or_number; [|lia].
    destruct (Z.eqb_spec v 0); lia.
Qed.

Lemma nonpositive_quantity_rejected_witness :
  let negative := QuotationForm.mkItem "pA" (-2) (Some Sample.productA) in
  let zero := QuotationForm.mkItem "pA" 0 (Some Sample.productA) in
  negative ∈ [Sample.lineB; negative]
  ∧ QuotationForm.submit Sample.products [Sample.lineB; negative] Sample.values
      Sample.empty_world
    = (Normal (QuotationForm.InputInvalid 1), Sample.empty_world)
  ∧ QuotationForm.submit Sample.products [zero] Sample.values Sample.empty_world
    = (Normal (QuotationForm.InputInvalid 0), Sample.empty_world)
  ∧ QuotationForm.submit Sample.products [Sample.lineA; Sample.lineB] Sample.values
      Sample.empty_world
    = (Normal (QuotationForm.Submitted []),
       accepted_world Sample.values [Sample.lineA; Sample.lineB] Sample.empty_world).
Proof.
  intros negative zero.
  assert (Hin : negative ∈ [Sample.lineB; negative])
    by (apply list_elem_of_In; right; left; reflexivity).
  assert (Hq : QuotationForm.quantity negative ≤ 0) by (simpl; lia).
  destruct (nonpositive_quantity_rejected Sample.products [Sample.lineB; negative]
              Sample.values Sample.empty_world) as [Hrej _].
  destruct (Hrej negative Hin Hq) as (index & line & Hrun & Hline & _).
  split; [exact Hin|]. split; [|split; reflexivity].
  rewrite Hrun. destruct index as [|[|index]]; [discriminate Hrun | reflexivity|].
  discriminate Hline.
Defined.




(* ===================================================================== *)
(** ** InvoiceGenerator: how [onSubmit] runs *)
(* ===================================================================== *)

Section InvoiceGeneratorRuns.

Import InvoiceGenerator.

Variables (quotation : Quotation.t) (products : gmap string Product.t)
          (invoiceType : InvoiceType) (data : InvoiceFormValues.t).

Ltac run :=
  unfold onSubmit;
  repeat (progress (unfold try_finally, try_catch, mbind, js_bind, bind, mret, js_ret,
                      ret, toast, modify, gets, serverTimestamp, push_invoice,
                      update_quotation, io_call, throw; simpl)).

Lemma onSubmit_no_customer (w : World) :
  onSubmit quotation None products invoiceType data w
  = (Normal (),
     mkWorld (db w) (toasts w ++ [generate_error]) (faults w) (now w) false (alerts w)).
Proof. destruct w. reflexivity. Qed.

Lemma onSubmit_push_fails (c : Customer.t) (w : World) (fs : list bool) :
  faults w = true :: fs →
  onSubmit quotation (Some c) products invoiceType data w
  = (Normal (), mkWorld (db w) (toasts w ++ [generate_error]) fs (now w) false (alerts w)).
Proof. destruct w; simpl. intros ->. reflexivity. Qed.

Lemma onSubmit_update_fails (c : Customer.t) (w : World) :
  next_call_ok w →
  update_fails quotation w →
  onSubmit quotation (Some c) products invoiceType data w
  = (Normal (),
     mkWorld (pushed_store quotation invoiceType data c w)
       (toasts w ++ [generate_error]) (drop 2 (faults w)) (now w)
       false (alerts w)).
Proof.
  unfold next_call_ok, update_fails, pushed_store. destruct w as [d ts fs n s al]; simpl.
  intros Hok Hfail. run.
  destruct fs as [|[] [|[] fs]]; simpl in *; try congruence;
    destruct Hfail as [Hf|Hq]; try discriminate; try reflexivity;
    now rewrite Hq.
Qed.

Lemma onSubmit_succeeds (c : Customer.t) (w : World) (r : Db.quotation) :
  next_call_ok w →
  faults w !! 1%nat ≠ Some true →
  Db.quotations (db w) !! Quotation.id quotation = Some r →
  onSubmit quotation (Some c) products invoiceType data w
  = (Normal (),
     mkWorld
       (Db.with_quotations
          (insert (Quotation.id quotation)
                  (Patch.apply_quotation (Patch.mkQuotation (Some invoiced)) r))
          (pushed_store quotation invoiceType data c w))
       (toasts w ++ [generated]) (drop 2 (faults w)) (now w) false
       (alerts w ++ [alert_text data])).
Proof.
  unfold next_call_ok, pushed_store. destruct w as [d ts fs n s al]; simpl.
  intros Hok Hok' Hq. run.
  destruct fs as [|[] [|[] fs]]; simpl in *; try congruence; now rewrite Hq.
Qed.

(** Whatever happens, the handler completes normally and leaves the
    products and the keys of the quotations alone; and it writes an invoice
    exactly when the customer is known and the first store call goes
    through. *)
Lemma onSubmit_cases (customer : option Customer.t) (w : World) :
  let w' := after (onSubmit quotation customer products invoiceType data) w in
  (db w' = db w ∧ toasts w' = toasts w ++ [generate_error])
  ∨ (∃ c, customer = Some c ∧ next_call_ok w ∧ update_fails quotation w
          ∧ db w' = pushed_store quotation invoiceType data c w
          ∧ toasts w' = toasts w ++ [generate_error])
  ∨ (∃ c r, customer = Some c ∧ next_call_ok w
            ∧ Db.quotations (db w) !! Quotation.id quotation = Some r
            ∧ db w' = Db.with_quotations
                        (insert (Quotation.id quotation)
                                (Patch.apply_quotation (Patch.mkQuotation (Some invoiced)) r))
                        (pushed_store quotation invoiceType data c w)
            ∧ toasts w' = toasts w ++ [generated]).
Proof.
  unfold after. destruct customer as [c|].
  2:{ left. now rewrite onSubmit_no_customer. }
  destruct (decide (next_call_ok w)) as [Hok|Hko].
  2:{ left. unfold next_call_ok in Hko. destruct (faults w) as [|[] fs] eqn:Hf; simpl in Hko;
        try (exfalso; apply Hko; discriminate).
      now rewrite (onSubmit_push_fails c w fs Hf). }
  right.
  destruct (decide (faults w !! 1%nat = Some true)) as [Hf|Hf].
  { left. exists c. rewrite onSubmit_update_fails; [|assumption|now left].
    repeat split; try assumption. now left. }
  destruct (Db.quotations (db w) !! Quotation.id quotation) as [r|] eqn:Hq.
  - right. exists c, r. rewrite (onSubmit_succeeds c w r); try assumption. now repeat split.
  - left. exists c. rewrite onSubmit_update_fails; [|assumption|now right].
    repeat split; try assumption. now right.
Qed.

End InvoiceGeneratorRuns.

(* ===================================================================== *)
(** ** InvoiceGenerator: the claims *)
(* ===================================================================== *)

(** C1, as the code has it.  [onSubmit] never reads the status of the
    quotation.  For every quotation, whatever its status, the status
    [invoiced] included: when the customer is known, the store holds the
    quotation and both store calls go through, the operation reports
    success, creates one new invoice record and writes the status
    [invoiced] to the quotation record; and the "Generate Invoice" button
    of the list opens the generator on the quotation whatever its status.
    There is no "already invoiced" error. *)
Theorem invoicing_ignores_status (quotation : Quotation.t) (c : Customer.t)
    (products : gmap string Product.t) (invoiceType : InvoiceType)
    (data : InvoiceFormValues.t) (w : World) (r : Db.quotation)
    (customers : gmap string Customer.t) (s : QuotationList.State) :
  Db.quotations (db w) !! Quotation.id quotation = Some r →
  next_call_ok w →
  faults w !! 1%nat ≠ Some true →
  let w' := after (InvoiceGenerator.onSubmit quotation (Some c) products invoiceType data) w in
  let k := fresh (dom (Db.invoices (db w))) in
  QuotationList.invoiceGeneratorProps customers (QuotationList.generateInvoiceClick quotation s)
  = Some (quotation, customers !! Quotation.customerId quotation)
  ∧ toasts w' = toasts w ++ [InvoiceGenerator.generated]
  ∧ Db.invoices (db w) !! k = None
  ∧ Db.invoices (db w')
    = <[k := InvoiceGenerator.invoiceData quotation (Customer.id c) invoiceType data (now w)]>
        (Db.invoices (db w))
  ∧ Db.quotations (db w') !! Quotation.id quotation
    = Some (Patch.apply_quotation (Patch.mkQuotation (Some invoiced)) r)
  ∧ Db.status (Patch.apply_quotation (Patch.mkQuotation (Some invoiced)) r) = invoiced.
Proof.
  intros Hq Hok Hok' w' k. subst w' k. unfold after.
  rewrite (onSubmit_succeeds quotation products invoiceType data c w r Hok Hok' Hq). simpl.
  split; [reflexivity|].
  split; [reflexivity|]. split; [apply fresh_lookup|]. split; [reflexivity|].
  split; [apply lookup_insert_eq | reflexivity].
Qed.

Lemma invoicing_ignores_status_witness :
  let w := Sample.world invoiced [] in
  let w' := after (InvoiceGenerator.onSubmit (Sample.quotation invoiced) (Some Sample.ann) ∅
                     customer Sample.plain) w in
  Db.quotations (db w) !! "q1" = Some (Sample.stored invoiced)
  ∧ next_call_ok w
  ∧ faults w !! 1%nat ≠ Some true
  ∧ toasts w' = [InvoiceGenerator.generated]
  ∧ Db.invoices (db w')
    = <["0" := InvoiceGenerator.invoiceData (Sample.quotation invoiced) "c1" customer
                 Sample.plain 1000]> ∅.
Proof.
  intros w w'.
  assert (H1 : Db.quotations (db w) !! Quotation.id (Sample.quotation invoiced)
               = Some (Sample.stored invoiced)) by reflexivity.
  assert (H2 : next_call_ok w) by (vm_compute; discriminate).
  assert (H3 : faults w !! 1%nat ≠ Some true) by (vm_compute; discriminate).
  destruct (invoicing_ignores_status (Sample.quotation invoiced) Sample.ann ∅ customer
              Sample.plain w (Sample.stored invoiced) {["c1" := Sample.ann]}
              (QuotationList.mkState None false) H1 H2 H3) as (_ & Ht & _ & Hi & _).
  split; [exact H1|]. split; [exact H2|]. split; [exact H3|]. split; [exact Ht | exact Hi].
Defined.

(** C1, as stated, fails: for a quotation whose status is already
    [invoiced], in memory and in the store, the button opens the generator,
    and generate-invoice shows the success toast and writes an invoice
    record. *)
Lemma invoiced_quotation_invoiced_again :
  let w := Sample.world invoiced [] in
  let w' := after (InvoiceGenerator.onSubmit (Sample.quotation invoiced) (Some Sample.ann) ∅
                     customer Sample.installation) w in
  Quotation.status (Sample.quotation invoiced) = invoiced
  ∧ (Db.status <$> Db.quotations (db w) !! "q1") = Some invoiced
  ∧ QuotationList.invoiceGeneratorProps {["c1" := Sample.ann]}
      (QuotationList.generateInvoiceClick (Sample.quotation invoiced)
         (QuotationList.mkState None false))
    = Some (Sample.quotation invoiced, Some Sample.ann)
  ∧ Db.invoices (db w) = ∅
  ∧ toasts w' = [mkToast "Success" "Invoice generated successfully" None]
  ∧ Db.invoices (db w') !! "0"
    = Some (Db.mkInvoice Sample.installation "q1" "c1" Sample.itemsAB 325 customer active 1000).
Proof. repeat split. Qed.

(** C2, as the code has it.  The two writes are in one [try] block with one
    [catch].  If the creation of the invoice record fails, nothing is
    written: the quotation is unchanged.  If the status update fails after
    the invoice record was created, the invoice record stays, the quotation
    is unchanged, and the failure is reported by the same toast as any other
    failure of the operation. *)
Theorem invoice_failures_share_one_report (quotation : Quotation.t)
    (customer : option Customer.t) (c : Customer.t)
    (products : gmap string Product.t) (invoiceType : InvoiceType)
    (data : InvoiceFormValues.t) (w : World) :
  (∀ fs, faults w = true :: fs →
     let w' := after (InvoiceGenerator.onSubmit quotation customer products invoiceType data)
                     w in
     db w' = db w
     ∧ toasts w' = toasts w ++ [InvoiceGenerator.generate_error]
     ∧ alerts w' = alerts w)
  ∧ (next_call_ok w → update_fails quotation w →
     let w' := after (InvoiceGenerator.onSubmit quotation (Some c) products invoiceType data)
                     w in
     let k := fresh (dom (Db.invoices (db w))) in
     Db.quotations (db w') = Db.quotations (db w)
     ∧ Db.invoices (db w) !! k = None
     ∧ Db.invoices (db w')
       = <[k := InvoiceGenerator.invoiceData quotation (Customer.id c) invoiceType data (now w)]>
           (Db.invoices (db w))
     ∧ toasts w' = toasts w ++ [InvoiceGenerator.generate_error]
     ∧ alerts w' = alerts w).
Proof.
  split.
  - intros fs Hf w'. subst w'. unfold after. destruct customer as [c'|].
    + now rewrite (onSubmit_push_fails quotation products invoiceType data c' w fs Hf).
    + now rewrite onSubmit_no_customer.
  - intros Hok Hfail w' k. subst w' k. unfold after.
    rewrite (onSubmit_update_fails quotation products invoiceType data c w Hok Hfail).
    simpl. split; [reflexivity|]. split; [apply fresh_lookup|]. now repeat split.
Qed.

Lemma invoice_failures_share_one_report_witness :
  let run fs := after (InvoiceGenerator.onSubmit (Sample.quotation pending) (Some Sample.ann)
                         ∅ customer Sample.installation) (Sample.world pending fs) in
  (db (run [true]) = Sample.store pending
   ∧ toasts (run [true]) = [InvoiceGenerator.generate_error])
  ∧ (Db.quotations (db (run [false; true])) = {["q1" := Sample.stored pending]}
     ∧ Db.invoices (db (run [false; true]))
       = <["0" := InvoiceGenerator.invoiceData (Sample.quotation pending) "c1" customer
                    Sample.installation 1000]> ∅
     ∧ toasts (run [false; true]) = [InvoiceGenerator.generate_error]).
Proof.
  intros run. split.
  - destruct (invoice_failures_share_one_report (Sample.quotation pending) (Some Sample.ann)
                Sample.ann ∅ customer Sample.installation (Sample.world pending [true]))
      as [Hcreate _].
    destruct (Hcreate [] eq_refl) as (Hdb & Ht & _). split; [exact Hdb | exact Ht].
  - destruct (invoice_failures_share_one_report (Sample.quotation pending) (Some Sample.ann)
                Sample.ann ∅ customer Sample.installation
                (Sample.world pending [false; true])) as [_ Hupdate].
    assert (H1 : next_call_ok (Sample.world pending [false; true]))
      by (vm_compute; discriminate).
    assert (H2 : update_fails (Sample.quotation pending) (Sample.world pending [false; true]))
      by (left; reflexivity).
    destruct (Hupdate H1 H2) as (Hq & _ & Hi & Ht & _).
    split; [exact Hq|]. split; [exact Hi | exact Ht].
Defined.

(** C2, as stated, fails in its second half: when the status update fails
    after the invoice record was created (faults [false; true]), the user is
    shown exactly what is shown when the creation itself fails (faults
    [true]): the same single toast, no alert.  Nothing tells the two apart,
    though in the first case an invoice record has been written. *)
Lemma partial_failure_reported_as_plain_failure :
  let run fs := after (InvoiceGenerator.onSubmit (Sample.quotation pending) (Some Sample.ann)
                         ∅ customer Sample.installation) (Sample.world pending fs) in
  let partial := run [false; true] in
  let failed := run [true] in
  Db.invoices (db partial) !! "0"
  = Some (Db.mkInvoice Sample.installation "q1" "c1" Sample.itemsAB 325 customer active 1000)
  ∧ Db.quotations (db partial) !! "q1" = Some (Sample.stored pending)
  ∧ Db.invoices (db failed) = ∅
  ∧ toasts partial
    = [mkToast "Error" "Failed to generate invoice. Please try again." (Some "destructive")]
  ∧ toasts failed = toasts partial
  ∧ alerts failed = alerts partial
  ∧ isSubmitting failed = isSubmitting partial.
Proof. repeat split. Qed.

(** The invoice total is the quotation total plus the sum of the extra
    amounts. *)
Lemma InvoiceGenerator_totalAmount_sum (quotation : Quotation.t) (data : InvoiceFormValues.t) :
  InvoiceGenerator.totalAmount quotation data
  = Quotation.totalAmount quotation
    + sumZ (map AdditionalItem.amount (default [] (InvoiceFormValues.additionalItems data))).
Proof.
  unfold InvoiceGenerator.totalAmount.
  destruct (InvoiceFormValues.additionalItems data) as [[|item rest]|]; simpl.
  - unfold sumZ; simpl; lia.
  - rewrite fold_left_add. unfold sumZ. simpl. lia.
  - unfold sumZ; simpl; lia.
Qed.

(** When the customer is known and the first store call goes through, the
    invoice record is in the store afterwards, whatever becomes of the
    second call. *)
Lemma InvoiceGenerator_invoice_written (quotation : Quotation.t) (c : Customer.t)
    (products : gmap string Product.t) (invoiceType : InvoiceType)
    (data : InvoiceFormValues.t) (w : World) :
  next_call_ok w →
  Db.invoices (db (after (InvoiceGenerator.onSubmit quotation (Some c) products invoiceType
                            data) w))
  = <[fresh (dom (Db.invoices (db w)))
      := InvoiceGenerator.invoiceData quotation (Customer.id c) invoiceType data (now w)]>
      (Db.invoices (db w)).
Proof.
  intros Hok. unfold after.
  destruct (decide (faults w !! 1%nat = Some true)) as [Hf|Hf].
  { rewrite onSubmit_update_fails; [reflexivity | assumption | now left]. }
  destruct (Db.quotations (db w) !! Quotation.id quotation) as [r|] eqn:Hq.
  - now rewrite (onSubmit_succeeds quotation products invoiceType data c w r).
  - rewrite onSubmit_update_fails; [reflexivity | assumption | now right].
Qed.

(** C5, as the code has it.  The invoice that generate-invoice writes has
    as totalAmount the total of the quotation with the amounts of the
    additional items added to it one after the other, in the order of the
    list; with no additional item (the list absent or empty) it is
    quotation.totalAmount exactly; and its status is [active].  In an
    arithmetic whose addition is exact (as on the integers) this is
    quotation.totalAmount + the sum of the amounts of the additional items.
    In the doubles of the program the additions round, and the two can
    differ. *)
Theorem invoice_total_added_in_order (quotation : Quotation.t) (c : Customer.t)
    (products : gmap string Product.t) (invoiceType : InvoiceType)
    (data : InvoiceFormValues.t) (w : World) :
  next_call_ok w →
  let w' := after (InvoiceGenerator.onSubmit quotation (Some c) products invoiceType data) w in
  let k := fresh (dom (Db.invoices (db w))) in
  let extra := default [] (InvoiceFormValues.additionalItems data) in
  ∃ inv,
    Db.invoices (db w) !! k = None
    ∧ Db.invoices (db w') !! k = Some inv
    ∧ Db.i_totalAmount inv
      = fold_left (λ totalAmount item, totalAmount + AdditionalItem.amount item) extra
          (Quotation.totalAmount quotation)
    ∧ (extra = [] → Db.i_totalAmount inv = Quotation.totalAmount quotation)
    ∧ Db.i_status inv = active
    ∧ Db.i_totalAmount inv
      = Amounts.totalAmount (Quotation.totalAmount quotation) (amounts data)
    ∧ ∀ (N : Type) (arithmetic : Number.t N) (quotationTotal : N) (extras : list N),
        Amounts.totalAmount quotationTotal None = quotationTotal
        ∧ Amounts.totalAmount quotationTotal (Some []) = quotationTotal
        ∧ Amounts.totalAmount quotationTotal (Some extras)
          = fold_left Number.add extras quotationTotal
        ∧ (exact_addition N →
           Amounts.totalAmount quotationTotal (Some extras)
           = Number.add quotationTotal (added_up extras)).
Proof.
  intros Hok w' k extra. subst w' k extra.
  exists (InvoiceGenerator.invoiceData quotation (Customer.id c) invoiceType data (now w)).
  rewrite InvoiceGenerator_invoice_written by assumption.
  split; [apply fresh_lookup|]. split; [apply lookup_insert_eq|]. simpl.
  split; [apply InvoiceGenerator_totalAmount_fold|]. split; [|split; [reflexivity|split]].
  - intros Hnil. now rewrite InvoiceGenerator_totalAmount_fold, Hnil.
  - apply InvoiceGenerator_totalAmount_amounts.
  - intros N arithmetic quotationTotal extras.
    assert (Hfold : Amounts.totalAmount quotationTotal (Some extras)
                    = fold_left Number.add extras quotationTotal)
      by now destruct extras.
    split; [reflexivity|]. split; [reflexivity|]. split; [exact Hfold|].
    intros Hexact. etrans; [exact Hfold|]. now apply fold_left_added_up.
Qed.

Lemma invoice_total_added_in_order_witness :
  let w := Sample.world approved [] in
  let run data := after (InvoiceGenerator.onSubmit (Sample.quotation approved)
                           (Some Sample.ann) ∅ customer data) w in
  next_call_ok w
  ∧ (∃ inv, Db.invoices (db (run Sample.installation)) !! "0" = Some inv
            ∧ Db.i_totalAmount inv = 250 + 75
            ∧ Db.i_status inv = active
            ∧ Amounts.totalAmount 250 (Some [75]) = 250 + added_up [75])
  ∧ (∃ inv, Db.invoices (db (run Sample.plain)) !! "0" = Some inv
            ∧ Db.i_totalAmount inv = 250)
  ∧ Amounts.totalAmount 250%float (Some [75%float]) = 325%float.
Proof.
  intros w run.
  assert (H : next_call_ok w) by (vm_compute; discriminate).
  split; [exact H|]. split; [|split; [|reflexivity]].
  - destruct (invoice_total_added_in_order (Sample.quotation approved) Sample.ann ∅ customer
                Sample.installation w H) as (inv & _ & Hi & Ht & _ & Hs & _ & Hany).
    destruct (Hany Z exact 250 [75]) as (_ & _ & _ & Hsum).
    exists inv. split; [exact Hi|]. split; [exact Ht|]. split; [exact Hs|].
    exact (Hsum exact_addition_Z).
  - destruct (invoice_total_added_in_order (Sample.quotation approved) Sample.ann ∅ customer
                Sample.plain w H) as (inv & _ & Hi & _ & Ht & _).
    exists inv. split; [exact Hi | exact (Ht eq_refl)].
Defined.

(** C5, as stated, fails: for a quotation total of 1000.11 and two
    additional items of 1500 and 2500, the total that [onSubmit] computes is
    (1000.11 + 1500) + 2500 = 5000.1100000000006, while the total of the
    quotation plus the sum of the amounts is 1000.11 + 4000 =
    5000.1099999999997. *)
Lemma invoice_total_is_not_total_plus_sum :
  Amounts.totalAmount Sample.decimal_total (Some Sample.two_extras)
  = 5000.1100000000006%float
  ∧ added_up Sample.two_extras = 4000%float
  ∧ Number.add Sample.decimal_total (added_up Sample.two_extras) = 5000.1099999999997%float
  ∧ PrimFloat.eqb (Amounts.totalAmount Sample.decimal_total (Some Sample.two_extras))
      (Number.add Sample.decimal_total (added_up Sample.two_extras)) = false.
Proof. repeat split. Qed.

(** C6.  The invoice that generate-invoice writes carries the items of the
    quotation, copied as they are (productId, quantity, unitPrice and
    subtotal of each line, in order).  Nothing is recomputed from the
    products: the record written is the same whatever the [products] prop
    and whatever the product records of the store, so a later change of a
    price affects neither the items nor the total. *)
Theorem invoice_items_verbatim (quotation : Quotation.t) (c : Customer.t)
    (products : gmap string Product.t) (invoiceType : InvoiceType)
    (data : InvoiceFormValues.t) (w : World) :
  next_call_ok w →
  let w' := after (InvoiceGenerator.onSubmit quotation (Some c) products invoiceType data) w in
  let k := fresh (dom (Db.invoices (db w))) in
  ∃ inv,
    Db.invoices (db w) !! k = None
    ∧ Db.invoices (db w') !! k = Some inv
    ∧ Db.i_items inv = Quotation.items quotation
    ∧ Forall2 (λ i j, QuotationItem.productId i = QuotationItem.productId j
                      ∧ QuotationItem.quantity i = QuotationItem.quantity j
                      ∧ QuotationItem.unitPrice i = QuotationItem.unitPrice j
                      ∧ QuotationItem.subtotal i = QuotationItem.subtotal j)
              (Db.i_items inv) (Quotation.items quotation)
    ∧ ∀ (products' : gmap string Product.t)
        (change : gmap string Db.product → gmap string Db.product),
        Db.invoices
          (db (after (InvoiceGenerator.onSubmit quotation (Some c) products' invoiceType data)
                     (set_db (Db.with_products change) w))) !! k
        = Some inv.
Proof.
  intros Hok w' k. subst w' k.
  exists (InvoiceGenerator.invoiceData quotation (Customer.id c) invoiceType data (now w)).
  rewrite InvoiceGenerator_invoice_written by assumption.
  split; [apply fresh_lookup|]. split; [apply lookup_insert_eq|]. simpl.
  split; [reflexivity|]. split.
  - induction (Quotation.items quotation); constructor; auto.
  - intros products' change. rewrite InvoiceGenerator_invoice_written by exact Hok.
    simpl. apply lookup_insert_eq.
Qed.

Lemma invoice_items_verbatim_witness :
  let w := Sample.world approved [] in
  let dearer : gmap string Db.product → gmap string Db.product :=
    insert "pA" (Db.mkProduct "Panel" "solar_panel" "24" "330W" "Acme" 5 "piece" 999 1 None) in
  next_call_ok w
  ∧ ∃ inv,
      Db.invoices
        (db (after (InvoiceGenerator.onSubmit (Sample.quotation approved) (Some Sample.ann) ∅
                      customer Sample.installation) w)) !! "0" = Some inv
      ∧ Db.i_items inv = Sample.itemsAB
      ∧ Db.invoices
          (db (after (InvoiceGenerator.onSubmit (Sample.quotation approved) (Some Sample.ann)
                        {["pA" := Sample.productB]} customer Sample.installation)
                     (set_db (Db.with_products dearer) w))) !! "0" = Some inv.
Proof.
  intros w dearer.
  assert (H : next_call_ok w) by (vm_compute; discriminate).
  split; [exact H|].
  destruct (invoice_items_verbatim (Sample.quotation approved) Sample.ann ∅ customer
              Sample.installation w H) as (inv & _ & Hi & Hitems & _ & Hframe).
  exists inv. split; [exact Hi|]. split; [exact Hitems|].
  exact (Hframe {["pA" := Sample.productB]} dearer).
Defined.

(** C10.  Generate-invoice writes to the quotation record nothing but the
    field status: no quotation record is added or removed, every quotation
    record keeps its items, totalAmount, customerId, validUntil, notes and
    createdAt, the only record that can differ is the one of the quotation
    invoiced, whose status is then [invoiced]; and no product record is
    written. *)
Theorem invoicing_frame (quotation : Quotation.t) (customer : option Customer.t)
    (products : gmap string Product.t) (invoiceType : InvoiceType)
    (data : InvoiceFormValues.t) (w : World) :
  let w' := after (InvoiceGenerator.onSubmit quotation customer products invoiceType data) w in
  Db.products (db w') = Db.products (db w)
  ∧ dom (Db.quotations (db w')) = dom (Db.quotations (db w))
  ∧ ∀ k r, Db.quotations (db w) !! k = Some r →
      ∃ r', Db.quotations (db w') !! k = Some r'
            ∧ Db.items r' = Db.items r
            ∧ Db.totalAmount r' = Db.totalAmount r
            ∧ Db.customerId r' = Db.customerId r
            ∧ Db.validUntil r' = Db.validUntil r
            ∧ Db.notes r' = Db.notes r
            ∧ Db.q_createdAt r' = Db.q_createdAt r
            ∧ (r' = r ∨ (k = Quotation.id quotation ∧ Db.status r' = invoiced)).
Proof.
  intros w'.
  destruct (onSubmit_cases quotation products invoiceType data customer w)
    as [[Hdb _] | [(c & _ & _ & _ & Hdb & _) | (c & r0 & _ & _ & Hq & Hdb & _)]];
    fold w' in Hdb; rewrite Hdb; simpl.
  - split; [reflexivity|]. split; [reflexivity|]. intros k r Hr. exists r. now repeat split; auto.
  - split; [reflexivity|]. split; [reflexivity|]. intros k r Hr. exists r. now repeat split; auto.
  - split; [reflexivity|]. split.
    + apply dom_insert_lookup_L. now rewrite Hq.
    + intros k r Hr. destruct (decide (k = Quotation.id quotation)) as [->|Hk].
      * rewrite Hq in Hr. injection Hr as ->.
        eexists. split; [apply lookup_insert_eq|]. simpl. repeat split. now right.
      * exists r. rewrite lookup_insert_ne by congruence. repeat split; auto.
Qed.

(* ===================================================================== *)
(** ** ProductList *)
(* ===================================================================== *)

Section ProductListRuns.

Import ProductList.

Ltac run :=
  repeat (progress (unfold try_catch, mbind, js_bind, bind, mret, js_ret, ret, toast,
                      modify, gets, serverTimestamp, update_product, io_call, throw; simpl)).

Lemma confirmQuantityChange_rejected (selected : Product.t) (quantityChange : Z) (w : World) :
  Product.quantity selected + quantityChange < 0 →
  confirmQuantityChange (Some selected) quantityChange w
  = (Normal (), set_toasts (λ l, l ++ [negative_error]) w).
Proof.
  intros Hneg. unfold confirmQuantityChange. run.
  destruct (Z.ltb_spec (Product.quantity selected + quantityChange) 0); [reflexivity | lia].
Qed.

(** An adjustment either leaves the store as it is, or merges a new,
    non-negative quantity into the record of the selected product. *)
Lemma confirmQuantityChange_cases (selected : Product.t) (quantityChange : Z) (w : World) :
  let w' := after (confirmQuantityChange (Some selected) quantityChange) w in
  db w' = db w
  ∨ (0 ≤ Product.quantity selected + quantityChange
     ∧ ∃ r, Db.products (db w) !! Product.id selected = Some r
            ∧ db w' = Db.with_products
                        (insert (Product.id selected)
                                (Patch.apply_product
                                   (adjustment (Product.quantity selected + quantityChange)
                                               (now w)) r))
                        (db w)).
Proof.
  unfold after, confirmQuantityChange. destruct w as [d ts fs n s al]. run.
  destruct (Z.ltb_spec (Product.quantity selected + quantityChange) 0) as [Hneg|Hpos];
    [now left|].
  destruct fs as [|[] fs]; simpl; [| now left |];
    (destruct (Db.products d !! Product.id selected) as [r|] eqn:Hr; simpl;
     [right; split; [exact Hpos|]; exists r; split; reflexivity | now left]).
Qed.

(** A direct edit either leaves the store as it is, or merges the edit
    form into the record of the selected product. *)
Lemma handleEditSubmit_cases (selected : Product.t) (editForm : EditForm) (w : World) :
  let w' := after (handleEditSubmit (Some selected) editForm) w in
  db w' = db w
  ∨ (∃ r r', Db.products (db w) !! Product.id selected = Some r
             ∧ Db.quantity r' = quantity editForm
             ∧ db w' = Db.with_products (insert (Product.id selected) r') (db w)).
Proof.
  unfold after, handleEditSubmit. destruct w as [d ts fs n s al]. run.
  destruct fs as [|[] fs]; simpl; [| now left |];
    (destruct (Db.products d !! Product.id selected) as [r|] eqn:Hr; simpl;
     [right; exists r; eexists; split; [reflexivity|]; split; [|reflexivity]; reflexivity
     | now left]).
Qed.

End ProductListRuns.

(** C8.  A product's quantity never becomes negative through the two
    operations that change it.  For every product and every signed delta,
    an adjustment whose result would be below zero is rejected with
    "Quantity cannot be negative." and the store is unchanged (no store call
    is attempted); whatever the delta, every product record after the
    adjustment is either as it was or the record of the selected product
    with the new quantity, which is not negative.  The edit dialog does not
    submit a negative quantity: its quantity input has [min="0"], and for
    such a form the handler is not called and nothing changes; every
    product record after a click on "Save Changes" is either as it was or the
    record of the selected product with the quantity of the form, which is
    not negative.  So when no stored quantity is negative, none is after
    either operation. *)
Theorem quantity_never_negative (selected : Product.t) (editForm : ProductList.EditForm)
    (quantityChange : Z) (w : World) :
  let adjusted := after (ProductList.confirmQuantityChange (Some selected) quantityChange) w in
  let edited := after (ProductList.submitEditForm (Some selected) editForm) w in
  (Product.quantity selected + quantityChange < 0 →
     db adjusted = db w
     ∧ toasts adjusted = toasts w ++ [ProductList.negative_error]
     ∧ faults adjusted = faults w)
  ∧ (∀ k r', Db.products (db adjusted) !! k = Some r' →
       Db.products (db w) !! k = Some r'
       ∨ (k = Product.id selected
          ∧ Db.quantity r' = Product.quantity selected + quantityChange
          ∧ 0 ≤ Db.quantity r'))
  ∧ (ProductList.quantity editForm < 0 →
     ProductList.submitEditForm (Some selected) editForm w = (Normal (), w))
  ∧ (∀ k r', Db.products (db edited) !! k = Some r' →
       Db.products (db w) !! k = Some r'
       ∨ (k = Product.id selected
          ∧ Db.quantity r' = ProductList.quantity editForm
          ∧ 0 ≤ Db.quantity r'))
  ∧ ((∀ k r, Db.products (db w) !! k = Some r → 0 ≤ Db.quantity r) →
     (∀ k r, Db.products (db adjusted) !! k = Some r → 0 ≤ Db.quantity r)
     ∧ (∀ k r, Db.products (db edited) !! k = Some r → 0 ≤ Db.quantity r)).
Proof.
  intros adjusted edited.
  assert (Hadjusted : ∀ k r', Db.products (db adjusted) !! k = Some r' →
            Db.products (db w) !! k = Some r'
            ∨ (k = Product.id selected
               ∧ Db.quantity r' = Product.quantity selected + quantityChange
               ∧ 0 ≤ Db.quantity r')).
  { intros k r' Hk.
    destruct (confirmQuantityChange_cases selected quantityChange w)
      as [Hdb | (Hpos & r & Hr & Hdb)]; fold adjusted in Hdb; rewrite Hdb in Hk.
    - now left.
    - simpl in Hk. destruct (decide (k = Product.id selected)) as [->|Hne].
      + right. rewrite lookup_insert_eq in Hk. injection Hk as <-. simpl. now repeat split.
      + left. now rewrite lookup_insert_ne in Hk by congruence. }
  assert (Hedited : ∀ k r', Db.products (db edited) !! k = Some r' →
            Db.products (db w) !! k = Some r'
            ∨ (k = Product.id selected
               ∧ Db.quantity r' = ProductList.quantity editForm
               ∧ 0 ≤ Db.quantity r')).
  { intros k r' Hk. subst edited. unfold ProductList.submitEditForm in Hk.
    destruct (ProductList.editFormValid editForm) eqn:Hv; [|now left].
    assert (Hq : 0 ≤ ProductList.quantity editForm).
    { unfold ProductList.editFormValid in Hv.
      apply andb_true_iff in Hv as [Hv _]. apply andb_true_iff in Hv as [_ Hv]. lia. }
    destruct (handleEditSubmit_cases selected editForm w)
      as [Hdb | (r & r0 & Hr & Hr0 & Hdb)]; rewrite Hdb in Hk.
    - now left.
    - simpl in Hk. destruct (decide (k = Product.id selected)) as [->|Hne].
      + right. rewrite lookup_insert_eq in Hk. injection Hk as <-.
        split; [reflexivity|]. split; [exact Hr0 | now rewrite Hr0].
      + left. now rewrite lookup_insert_ne in Hk by congruence. }
  split; [|split; [exact Hadjusted|split; [|split; [exact Hedited|]]]].
  - intros Hneg. subst adjusted. unfold after.
    now rewrite (confirmQuantityChange_rejected selected quantityChange w Hneg).
  - intros Hneg. unfold ProductList.submitEditForm.
    assert (Hv : ProductList.editFormValid editForm = false); [|now rewrite Hv].
    unfold ProductList.editFormValid.
    destruct (Z.leb_spec 0 (ProductList.quantity editForm)) as [Hle|_]; [lia|].
    now rewrite andb_false_r.
  - intros Hstore. split; intros k r Hk.
    + destruct (Hadjusted k r Hk) as [Hold | (_ & _ & Hpos)]; [now apply (Hstore k) | exact Hpos].
    + destruct (Hedited k r Hk) as [Hold | (_ & _ & Hpos)]; [now apply (Hstore k) | exact Hpos].
Qed.

Lemma quantity_never_negative_witness :
  let w := Sample.world pending [] in
  let form quantity :=
    ProductList.mkEditForm "Panel" "solar_panel" "24" "330W" "Acme" quantity "piece" 100 in
  let adjusted := after (ProductList.confirmQuantityChange (Some Sample.productA) (-9)) w in
  Product.quantity Sample.productA + -9 < 0
  ∧ db adjusted = db w
  ∧ toasts adjusted = toasts w ++ [ProductList.negative_error]
  ∧ ProductList.quantity (form (-1)) < 0
  ∧ ProductList.submitEditForm (Some Sample.productA) (form (-1)) w = (Normal (), w)
  ∧ (Db.quantity
       <$> Db.products (db (after (ProductList.submitEditForm (Some Sample.productA) (form 0))
                                  w)) !! "pA") = Some 0.
Proof.
  intros w form adjusted.
  assert (Hneg : Product.quantity Sample.productA + -9 < 0) by (simpl; lia).
  assert (Hform : ProductList.quantity (form (-1)) < 0) by (simpl; lia).
  destruct (quantity_never_negative Sample.productA (form (-1)) (-9) w)
    as (Hrejected & _ & Hblocked & _).
  destruct (Hrejected Hneg) as (Hdb & Ht & _).
  split; [exact Hneg|]. split; [exact Hdb|]. split; [exact Ht|]. split; [exact Hform|].
  split; [exact (Hblocked Hform) | reflexivity].
Defined.

(* ===================================================================== *)
(** ** Further properties: QuotationForm *)
(* ===================================================================== *)

(** X1.  [onSubmit] changes the store exactly when the list of lines is not
    empty, every line passes the three checks and the store call goes
    through; the store is then the old one with the new quotation under a
    new key. *)
Theorem quotation_written_iff (products : list Product.t)
    (quotationItems : list QuotationForm.QuotationItem)
    (data : QuotationFormValues.t) (w : World) :
  let w' := after (QuotationForm.onSubmit products quotationItems data) w in
  let k := fresh (dom (Db.quotations (db w))) in
  (db w' ≠ db w
   ↔ quotationItems ≠ [] ∧ Forall (line_ok products) quotationItems ∧ next_call_ok w)
  ∧ (db w' ≠ db w →
     Db.quotations (db w) !! k = None
     ∧ db w' = Db.with_quotations
                 (insert k (QuotationForm.quotationData data quotationItems (now w))) (db w)).
Proof.
  intros w' k.
  assert (Hacc : quotationItems ≠ [] → Forall (line_ok products) quotationItems →
                 next_call_ok w →
                 db w' = Db.with_quotations
                           (insert k (QuotationForm.quotationData data quotationItems (now w)))
                           (db w)).
  { intros Hne Hall Hok. subst w'. unfold after.
    rewrite onSubmit_accepted; try assumption; [reflexivity|]. now apply validateItems_None. }
  assert (Hdiff : ∀ r, Db.with_quotations (insert k r) (db w) ≠ db w).
  { intros r Heq. apply (f_equal (λ d, Db.quotations d !! k)) in Heq. simpl in Heq.
    rewrite lookup_insert_eq in Heq. subst k. rewrite fresh_lookup in Heq. discriminate. }
  assert (Hiff : db w' ≠ db w
                 ↔ quotationItems ≠ [] ∧ Forall (line_ok products) quotationItems
                   ∧ next_call_ok w).
  { split.
    - intros Hne.
      destruct (QuotationForm_onSubmit_cases products quotationItems data w)
        as [Hsame | (Hitems & Hv & Hrun)]; [now fold w' in Hsame|].
      split; [exact Hitems|]. split; [now apply validateItems_None|].
      unfold next_call_ok. destruct (faults w) as [|[] fs] eqn:Hf; simpl; try discriminate.
      exfalso. apply Hne. subst w'. unfold after.
      now rewrite (onSubmit_store_error products data quotationItems w fs Hitems Hv Hf).
    - intros (Hne & Hall & Hok). rewrite (Hacc Hne Hall Hok). apply Hdiff. }
  split; [exact Hiff|]. intros Hne. apply Hiff in Hne as (H1 & H2 & H3).
  split; [apply fresh_lookup | now apply Hacc].
Qed.

(** X2.  The validation loop stops at the first line that fails a check:
    after lines that pass, a line that does not decides the toast (no product
    selected, product not found, or not enough stock, tested in this order),
    whatever the lines after it; nothing is written and the lines are
    kept. *)
Theorem first_invalid_line_decides (products : list Product.t)
    (pre post : list QuotationForm.QuotationItem) (item : QuotationForm.QuotationItem)
    (data : QuotationFormValues.t) (w : World) :
  Forall (line_ok products) pre →
  ¬ line_ok products item →
  let t :=
    if String.eqb (QuotationForm.productId item) "" then QuotationForm.select_error
    else match QuotationForm.findProduct products (QuotationForm.productId item) with
         | None => QuotationForm.not_found_error
         | Some p => QuotationForm.stock_error p
         end in
  QuotationForm.onSubmit products (pre ++ item :: post) data w
  = (Normal (pre ++ item :: post), set_toasts (λ l, l ++ [t]) w).
Proof.
  intros Hpre Hitem t. apply onSubmit_rejected; [now destruct pre|].
  rewrite validateItems_app by now apply validateItems_None. simpl. subst t.
  destruct (String.eqb_spec (QuotationForm.productId item) "") as [He|He]; [reflexivity|].
  destruct (QuotationForm.findProduct products (QuotationForm.productId item)) as [p|] eqn:Hf;
    [|reflexivity].
  destruct (Z.ltb_spec (Product.quantity p) (QuotationForm.quantity item)) as [Hlt|Hle];
    [reflexivity|].
  exfalso. apply Hitem. split; [exact He|]. exists p. now split.
Qed.

Lemma first_invalid_line_decides_witness :
  let ghost := QuotationForm.mkItem "pZ" 1 None in
  let nine := QuotationForm.mkItem "pA" 9 (Some Sample.productA) in
  Forall (line_ok Sample.products) [Sample.lineB]
  ∧ ¬ line_ok Sample.products ghost
  ∧ QuotationForm.onSubmit Sample.products ([Sample.lineB] ++ ghost :: [nine]) Sample.values
      Sample.empty_world
    = (Normal [Sample.lineB; ghost; nine],
       set_toasts
         (λ l, l ++ [mkToast "Error" "One or more products not found" (Some "destructive")])
         Sample.empty_world).
Proof.
  intros ghost nine.
  assert (H1 : Forall (line_ok Sample.products) [Sample.lineB]).
  { constructor; [|constructor]. split; [discriminate|].
    exists Sample.productB. split; [reflexivity | simpl; lia]. }
  assert (H2 : ¬ line_ok Sample.products ghost).
  { intros (_ & p & Hp & _). discriminate Hp. }
  split; [exact H1|]. split; [exact H2|].
  exact (first_invalid_line_decides Sample.products [Sample.lineB] [nine] ghost Sample.values
           Sample.empty_world H1 H2).
Defined.

(** X3.  Creating a quotation never touches the products or the invoices (it
    reserves no stock), and never changes or removes a quotation that is
    already stored; a record it adds is [pending], carries the server time
    and the customer, validity date and notes of the form, and has one item
    per line, with the product id and the quantity of the line. *)
Theorem quotation_creation_frame (products : list Product.t)
    (quotationItems : list QuotationForm.QuotationItem)
    (data : QuotationFormValues.t) (w : World) :
  let w' := after (QuotationForm.onSubmit products quotationItems data) w in
  Db.products (db w') = Db.products (db w)
  ∧ Db.invoices (db w') = Db.invoices (db w)
  ∧ (∀ k r, Db.quotations (db w) !! k = Some r → Db.quotations (db w') !! k = Some r)
  ∧ (∀ k r, Db.quotations (db w) !! k = None → Db.quotations (db w') !! k = Some r →
       Db.status r = pending
       ∧ Db.q_createdAt r = now w
       ∧ Db.customerId r = QuotationFormValues.customerId data
       ∧ Db.validUntil r = QuotationFormValues.validUntil data
       ∧ Db.notes r = QuotationFormValues.notes data
       ∧ map QuotationItem.productId (Db.items r)
         = map QuotationForm.productId quotationItems
       ∧ map QuotationItem.quantity (Db.items r)
         = map QuotationForm.quantity quotationItems).
Proof.
  intros w'.
  destruct (QuotationForm_onSubmit_cases products quotationItems data w)
    as [Hsame | (_ & _ & Hrun)]; fold w' in Hsame || idtac.
  - rewrite Hsame. split; [reflexivity|]. split; [reflexivity|]. split.
    + intros k r Hr. exact Hr.
    + intros k r H0 H1. congruence.
  - subst w'. unfold after. rewrite Hrun. simpl.
    split; [reflexivity|]. split; [reflexivity|]. split.
    + intros k r Hr. rewrite lookup_insert_ne; [exact Hr|].
      intros <-. rewrite fresh_lookup in Hr. discriminate.
    + intros k r Hold Hnew.
      destruct (decide (k = fresh (dom (Db.quotations (db w))))) as [->|Hk].
      2:{ rewrite lookup_insert_ne in Hnew by congruence. congruence. }
      rewrite lookup_insert_eq in Hnew. injection Hnew as <-. simpl.
      rewrite !map_map. now repeat split.
Qed.

(** The three ways of editing the lines keep them coherent. *)
Lemma editing_keeps_coherent (products : list Product.t)
    (quotationItems : list QuotationForm.QuotationItem) :
  Forall (coherent products) quotationItems →
  Forall (coherent products) (QuotationForm.addQuotationItem quotationItems)
  ∧ (∀ index, Forall (coherent products)
                (QuotationForm.removeQuotationItem index quotationItems))
  ∧ (∀ index fv updated,
       QuotationForm.updateQuotationItem products quotationItems index fv = Some updated →
       Forall (coherent products) updated).
Proof.
  intros Hall. split; [|split].
  - apply Forall_app. split; [exact Hall|]. constructor; [|constructor]. now left.
  - intros index. unfold QuotationForm.removeQuotationItem.
    now apply Forall_delete.
  - intros index fv updated. unfold QuotationForm.updateQuotationItem.
    destruct (quotationItems !! index) as [item|] eqn:Hi; [|discriminate].
    intros [= <-]. apply Forall_insert; [exact Hall|].
    assert (Hitem : coherent products item) by (eapply Forall_lookup_1; eauto).
    destruct fv as [value|value]; [now right | exact Hitem].
Qed.

(** X4.  Lines built with [addQuotationItem], [removeQuotationItem] and
    [updateQuotationItem] from the products the form holds carry, each, the
    product that the validation loop looks up.  So when [onSubmit] writes a
    quotation made of such lines, every stored item has the price of the
    very product whose stock was checked, for a quantity that product has in
    stock. *)
Theorem stored_price_is_the_checked_product (products : list Product.t)
    (quotationItems : list QuotationForm.QuotationItem)
    (data : QuotationFormValues.t) (w : World) (k : string) (r : Db.quotation) :
  Forall (coherent products) quotationItems →
  Db.quotations (db w) !! k = None →
  Db.quotations (db (after (QuotationForm.onSubmit products quotationItems data) w)) !! k
  = Some r →
  Forall
    (λ stored,
       ∃ p, QuotationForm.findProduct products (QuotationItem.productId stored) = Some p
            ∧ QuotationItem.unitPrice stored = Product.price p
            ∧ QuotationItem.subtotal stored = Product.price p * QuotationItem.quantity stored
            ∧ QuotationItem.quantity stored ≤ Product.quantity p)
    (Db.items r)
  ∧ Forall (coherent products) (QuotationForm.addQuotationItem quotationItems)
  ∧ (∀ index, Forall (coherent products)
                (QuotationForm.removeQuotationItem index quotationItems))
  ∧ (∀ index fv updated,
       QuotationForm.updateQuotationItem products quotationItems index fv = Some updated →
       Forall (coherent products) updated).
Proof.
  intros Hcoh Hold Hnew. split; [|now apply editing_keeps_coherent].
  destruct (QuotationForm_onSubmit_cases products quotationItems data w)
    as [Hsame | (_ & Hv & Hrun)].
  { rewrite Hsame in Hnew. congruence. }
  unfold after in Hnew. rewrite Hrun in Hnew. simpl in Hnew.
  destruct (decide (k = fresh (dom (Db.quotations (db w))))) as [->|Hk].
  2:{ rewrite lookup_insert_ne in Hnew by congruence. congruence. }
  rewrite lookup_insert_eq in Hnew. injection Hnew as <-. simpl.
  apply validateItems_None in Hv. apply Forall_map.
  rewrite Forall_forall in Hcoh, Hv. apply Forall_forall. intros item Hin.
  destruct (Hv item Hin) as (Hid & p & Hp & Hq). exists p. simpl.
  destruct (Hcoh item Hin) as [[Hblank _] | Hprod]; [congruence|].
  rewrite Hprod, Hp. simpl. rewrite or_number_zero. now repeat split.
Qed.

Lemma stored_price_is_the_checked_product_witness :
  let items := [Sample.lineA; Sample.lineB] in
  let r := Db.mkQuotation "c1" "2026-01-01" None Sample.itemsAB 250 pending 1000 in
  Forall (coherent Sample.products) items
  ∧ Db.quotations (db Sample.empty_world) !! "0" = None
  ∧ Db.quotations
      (db (after (QuotationForm.onSubmit Sample.products items Sample.values)
                 Sample.empty_world)) !! "0" = Some r
  ∧ Forall
      (λ stored,
         ∃ p, QuotationForm.findProduct Sample.products (QuotationItem.productId stored)
              = Some p
              ∧ QuotationItem.unitPrice stored = Product.price p
              ∧ QuotationItem.subtotal stored
                = Product.price p * QuotationItem.quantity stored
              ∧ QuotationItem.quantity stored ≤ Product.quantity p)
      Sample.itemsAB.
Proof.
  intros items r.
  assert (H0 : Forall (coherent Sample.products) items)
    by (repeat constructor; right; reflexivity).
  assert (H1 : Db.quotations (db Sample.empty_world) !! "0" = None) by reflexivity.
  assert (H2 : Db.quotations
      (db (after (QuotationForm.onSubmit Sample.products items Sample.values)
                 Sample.empty_world)) !! "0" = Some r) by (vm_compute; reflexivity).
  destruct (stored_price_is_the_checked_product Sample.products items Sample.values
              Sample.empty_world "0" r H0 H1 H2) as [Hprice _].
  split; [exact H0|]. split; [exact H1|]. split; [exact H2 | exact Hprice].
Defined.

(** X5.  Lines without a product do not count in the running total, in
    every arithmetic: the total of the lines is the total of the lines that
    carry a product.  So a new line, which has no product yet, leaves the
    total of the form as it is (on the empty form too), and so does
    removing a line that has no product. *)
Theorem total_ignores_blank_lines (quotationItems : list QuotationForm.QuotationItem) :
  QuotationForm.total (QuotationForm.addQuotationItem quotationItems)
  = QuotationForm.total quotationItems
  ∧ (∀ index item,
       quotationItems !! index = Some item →
       QuotationForm.product item = None →
       QuotationForm.total (QuotationForm.removeQuotationItem index quotationItems)
       = QuotationForm.total quotationItems)
  ∧ ∀ (N : Type) (arithmetic : Number.t N) (lines : list (option N * N)) (quantity : N),
      Amounts.total (List.filter with_product lines) = Amounts.total lines
      ∧ Amounts.total (lines ++ [(None, quantity)]) = Amounts.total lines
      ∧ (∀ index, lines !! index = Some (None, quantity) →
           Amounts.total (delete index lines) = Amounts.total lines).
Proof.
  split; [|split].
  - rewrite !QuotationForm_total_priced, !total_added_up.
    unfold QuotationForm.addQuotationItem, priced. rewrite map_app, subtotals_app.
    simpl. now rewrite app_nil_r.
  - intros index [pid q p] Hi Hp. simpl in Hp. subst p.
    rewrite !QuotationForm_total_priced, !total_added_up.
    unfold QuotationForm.removeQuotationItem.
    assert (Hd : priced (delete index quotationItems) = delete index (priced quotationItems)).
    { clear. revert index. induction quotationItems as [|item rest IH]; intros [|index];
        simpl; try reflexivity. f_equal. apply IH. }
    assert (Hl : priced quotationItems !! index = Some (None, q)).
    { clear -Hi. revert index Hi.
      induction quotationItems as [|item rest IH]; intros [|index] Hi; simpl in *;
        try discriminate; [now injection Hi as -> | now apply IH]. }
    rewrite Hd. now rewrite (subtotals_delete (priced quotationItems) index q Hl).
  - intros N arithmetic lines quantity. rewrite !total_added_up.
    split; [now rewrite subtotals_filter|]. split.
    + rewrite subtotals_app. simpl. now rewrite app_nil_r.
    + intros index Hi. rewrite !total_added_up.
      now rewrite (subtotals_delete lines index quantity Hi).
Qed.

(* ===================================================================== *)
(** ** Further properties: InvoiceGenerator *)
(* ===================================================================== *)

Lemma min1_nonempty (s : string) : min1 s = true → s ≠ "".
Proof. intros H ->. discriminate H. Qed.

(** Every run of [onSubmit] that adds an invoice record adds [invoiceData],
    for a customer that is known. *)
Lemma InvoiceGenerator_new_invoice (quotation : Quotation.t) (customer : option Customer.t)
    (products : gmap string Product.t) (invoiceType : InvoiceType)
    (data : InvoiceFormValues.t) (w : World) (k : string) (inv : Db.invoice) :
  Db.invoices (db w) !! k = None →
  Db.invoices (db (after (InvoiceGenerator.onSubmit quotation customer products invoiceType
                            data) w)) !! k = Some inv →
  ∃ c, customer = Some c
       ∧ inv = InvoiceGenerator.invoiceData quotation (Customer.id c) invoiceType data (now w).
Proof.
  intros Hold Hnew.
  destruct (onSubmit_cases quotation products invoiceType data customer w)
    as [[Hdb _] | [(c & Hc & _ & _ & Hdb & _) | (c & r0 & Hc & _ & _ & Hdb & _)]];
    rewrite Hdb in Hnew; simpl in Hnew.
  - congruence.
  - exists c. split; [exact Hc|].
    destruct (decide (k = fresh (dom (Db.invoices (db w))))) as [->|Hk].
    + rewrite lookup_insert_eq in Hnew. congruence.
    + rewrite lookup_insert_ne in Hnew by congruence. congruence.
  - exists c. split; [exact Hc|].
    destruct (decide (k = fresh (dom (Db.invoices (db w))))) as [->|Hk].
    + rewrite lookup_insert_eq in Hnew. congruence.
    + rewrite lookup_insert_ne in Hnew by congruence. congruence.
Qed.

(** X7.  What the schema buys.  With form values that do not satisfy
    [invoiceSchema], submitting does nothing at all.  An invoice record
    written through [handleSubmit] holds the form values, with an invoice
    number, an invoice date and payment terms that are not empty, additional
    items that each have a description and an amount of 0 at least, and a
    total that is not below the total of the quotation. *)
Theorem schema_guards_invoice (quotation : Quotation.t) (customer : option Customer.t)
    (products : gmap string Product.t) (invoiceType : InvoiceType)
    (data : InvoiceFormValues.t) (w : World) :
  (InvoiceGenerator.invoiceSchema data = false →
   InvoiceGenerator.handleSubmit quotation customer products invoiceType data w
   = (Normal (), w))
  ∧ (∀ k inv,
       Db.invoices (db w) !! k = None →
       Db.invoices (db (after (InvoiceGenerator.handleSubmit quotation customer products
                                 invoiceType data) w)) !! k = Some inv →
       Db.form inv = data
       ∧ InvoiceFormValues.invoiceNumber data ≠ ""
       ∧ InvoiceFormValues.invoiceDate data ≠ ""
       ∧ InvoiceFormValues.paymentTerms data ≠ ""
       ∧ Forall (λ item, AdditionalItem.description item ≠ "" ∧ 0 ≤ AdditionalItem.amount item)
                (default [] (InvoiceFormValues.additionalItems data))
       ∧ Quotation.totalAmount quotation ≤ Db.i_totalAmount inv).
Proof.
  unfold InvoiceGenerator.handleSubmit. split.
  - intros ->. reflexivity.
  - intros k inv Hold Hnew.
    destruct (InvoiceGenerator.invoiceSchema data) eqn:Hs.
    2:{ unfold after in Hnew. simpl in Hnew. congruence. }
    destruct (InvoiceGenerator_new_invoice quotation customer products invoiceType data w
                k inv Hold Hnew) as (c & _ & ->).
    unfold InvoiceGenerator.invoiceSchema in Hs.
    apply andb_true_iff in Hs as [Hs Hitems]. apply andb_true_iff in Hs as [Hs H3].
    apply andb_true_iff in Hs as [H1 H2].
    assert (Hall : Forall (λ item, AdditionalItem.description item ≠ ""
                                   ∧ 0 ≤ AdditionalItem.amount item)
                     (default [] (InvoiceFormValues.additionalItems data))).
    { destruct (InvoiceFormValues.additionalItems data) as [items|]; simpl; [|constructor].
      apply Forall_forall. intros item Hin. rewrite forallb_forall in Hitems.
      apply list_elem_of_In, Hitems, andb_true_iff in Hin as [Hd Ha].
      split; [now apply min1_nonempty | lia]. }
    simpl. split; [reflexivity|]. repeat (split; [now apply min1_nonempty|]).
    split; [exact Hall|]. rewrite InvoiceGenerator_totalAmount_sum.
    assert (0 ≤ sumZ (map AdditionalItem.amount
                        (default [] (InvoiceFormValues.additionalItems data)))); [|lia].
    induction Hall as [|item rest [_ Ha] _ IH]; unfold sumZ in *; simpl; lia.
Qed.

Lemma schema_guards_invoice_witness :
  let w := Sample.world approved [] in
  let blank := InvoiceFormValues.mk "" "2026-01-02" "100% advance payment" None None None in
  InvoiceGenerator.invoiceSchema blank = false
  ∧ InvoiceGenerator.handleSubmit (Sample.quotation approved) (Some Sample.ann) ∅ customer
      blank w = (Normal (), w)
  ∧ Db.invoices (db w) !! "0" = None
  ∧ ∃ inv,
      Db.invoices
        (db (after (InvoiceGenerator.handleSubmit (Sample.quotation approved)
                      (Some Sample.ann) ∅ customer Sample.installation) w)) !! "0"
      = Some inv
      ∧ Db.form inv = Sample.installation
      ∧ 250 ≤ Db.i_totalAmount inv.
Proof.
  intros w blank.
  assert (H0 : InvoiceGenerator.invoiceSchema blank = false) by reflexivity.
  assert (H1 : Db.invoices (db w) !! "0" = None) by reflexivity.
  split; [exact H0|].
  split.
  { exact (proj1 (schema_guards_invoice (Sample.quotation approved) (Some Sample.ann) ∅
                    customer blank w) H0). }
  split; [exact H1|].
  eexists. split; [vm_compute; reflexivity|].
  destruct (proj2 (schema_guards_invoice (Sample.quotation approved) (Some Sample.ann) ∅
                     customer Sample.installation w) "0" _ H1 eq_refl)
    as (Hform & _ & _ & _ & _ & Htotal).
  split; [exact Hform | exact Htotal].
Defined.

(** X8.  Additional items.  An item just added has no description and the
    amount 0: it comes last in the list, and with it the form fails the
    schema, so that submitting does nothing until the item is described or
    removed.  Removing it again gives the list back; and removing at a
    position past the end of the list removes nothing.  This holds for every
    form, the one without additional items included. *)
Theorem additional_items_editing (quotation : Quotation.t) (customer : option Customer.t)
    (products : gmap string Product.t) (invoiceType : InvoiceType)
    (data : InvoiceFormValues.t) (w : World) :
  let additionalItems := default [] (InvoiceFormValues.additionalItems data) in
  InvoiceFormValues.additionalItems (InvoiceGenerator.addAdditionalItem data)
  = Some (additionalItems ++ [AdditionalItem.mk "" 0])
  ∧ InvoiceGenerator.invoiceSchema (InvoiceGenerator.addAdditionalItem data) = false
  ∧ InvoiceGenerator.handleSubmit quotation customer products invoiceType
      (InvoiceGenerator.addAdditionalItem data) w = (Normal (), w)
  ∧ InvoiceGenerator.removeAdditionalItem (length additionalItems)
      (InvoiceGenerator.addAdditionalItem data)
    = InvoiceGenerator.with_additionalItems additionalItems data
  ∧ (∀ index, (length additionalItems ≤ index)%nat →
       InvoiceGenerator.removeAdditionalItem index data
       = InvoiceGenerator.with_additionalItems additionalItems data).
Proof.
  intros additionalItems.
  assert (Hs : InvoiceGenerator.invoiceSchema (InvoiceGenerator.addAdditionalItem data)
               = false).
  { unfold InvoiceGenerator.invoiceSchema. simpl. fold additionalItems.
    rewrite forallb_app. simpl. rewrite !andb_false_r. reflexivity. }
  split; [reflexivity|]. split; [exact Hs|]. split; [|split].
  - unfold InvoiceGenerator.handleSubmit. now rewrite Hs.
  - unfold InvoiceGenerator.removeAdditionalItem. simpl. fold additionalItems.
    assert (Hl : ∀ (l : list AdditionalItem.t) x, delete (length l) (l ++ [x]) = l).
    { intros l x. induction l as [|y l IH]; simpl; [reflexivity | now rewrite IH]. }
    rewrite Hl. reflexivity.
  - intros index Hlen. unfold InvoiceGenerator.removeAdditionalItem. fold additionalItems.
    f_equal. revert index Hlen. generalize additionalItems as l.
    induction l as [|y l IH]; intros [|index] Hlen; simpl in *; try reflexivity; [lia|].
    f_equal. apply IH. lia.
Qed.

(** X9.  [onSubmit] never throws and never leaves the form submitting:
    every run completes normally with [isSubmitting] false and exactly one
    more toast, which is the success toast, together with the scheduled
    alert and the status [invoiced] on the quotation record, or else the
    error toast, with no alert. *)
Theorem invoice_submit_always_settles (quotation : Quotation.t)
    (customer : option Customer.t) (products : gmap string Product.t)
    (invoiceType : InvoiceType) (data : InvoiceFormValues.t) (w : World) :
  let run := InvoiceGenerator.onSubmit quotation customer products invoiceType data w in
  run.1 = Normal ()
  ∧ isSubmitting run.2 = false
  ∧ now run.2 = now w
  ∧ ((toasts run.2 = toasts w ++ [InvoiceGenerator.generated]
      ∧ alerts run.2 = alerts w ++ [InvoiceGenerator.alert_text data]
      ∧ (Db.status <$> Db.quotations (db run.2) !! Quotation.id quotation) = Some invoiced)
     ∨ (toasts run.2 = toasts w ++ [InvoiceGenerator.generate_error]
        ∧ alerts run.2 = alerts w)).
Proof.
  intros run. subst run. destruct customer as [c|].
  2:{ rewrite onSubmit_no_customer. simpl. repeat split. now right. }
  destruct (decide (next_call_ok w)) as [Hok|Hko].
  2:{ unfold next_call_ok in Hko. destruct (faults w) as [|[] fs] eqn:Hf; simpl in Hko;
        try (exfalso; apply Hko; discriminate).
      rewrite (onSubmit_push_fails quotation products invoiceType data c w fs Hf).
      simpl. repeat split. now right. }
  destruct (decide (faults w !! 1%nat = Some true)) as [Hf|Hf].
  { rewrite onSubmit_update_fails; [|assumption|now left]. simpl. repeat split. now right. }
  destruct (Db.quotations (db w) !! Quotation.id quotation) as [r|] eqn:Hq.
  - rewrite (onSubmit_succeeds quotation products invoiceType data c w r); try assumption.
    simpl. repeat split. left. repeat split. now rewrite lookup_insert_eq.
  - rewrite onSubmit_update_fails; [|assumption|now right]. simpl. repeat split. now right.
Qed.

(* ===================================================================== *)
(** ** Further properties: ProductList *)
(* ===================================================================== *)

Section ProductListWrites.

Import ProductList.

Ltac run :=
  repeat (progress (unfold try_catch, mbind, js_bind, bind, mret, js_ret, ret, toast,
                      modify, gets, serverTimestamp, update_product, remove_product,
                      io_call, throw; simpl)).

Lemma updateDisabled_false (selected : Product.t) (quantityChange : Z) :
  updateDisabled (Some selected) quantityChange = false
  ↔ quantityChange ≠ 0 ∧ 0 ≤ Product.quantity selected + quantityChange.
Proof.
  unfold updateDisabled. simpl. rewrite or_number_zero, orb_false_iff.
  rewrite Z.eqb_neq, Z.ltb_ge. reflexivity.
Qed.

Lemma confirmQuantityChange_written (selected : Product.t) (quantityChange : Z) (w : World)
    (r : Db.product) :
  0 ≤ Product.quantity selected + quantityChange →
  next_call_ok w →
  Db.products (db w) !! Product.id selected = Some r →
  confirmQuantityChange (Some selected) quantityChange w
  = (Normal (),
     mkWorld
       (Db.with_products
          (insert (Product.id selected)
                  (Patch.apply_product
                     (adjustment (Product.quantity selected + quantityChange) (now w)) r))
          (db w))
       (toasts w
        ++ [success_toast
              (pretty (Z.abs quantityChange) +:+ " " +:+ Product.unit selected +:+ "(s) "
               +:+ (if 0 <? quantityChange then "added to" else "removed from")
               +:+ " inventory.")])
       (tail (faults w)) (now w) (isSubmitting w) (alerts w)).
Proof.
  unfold next_call_ok, confirmQuantityChange. destruct w as [d ts fs n s al]; simpl.
  intros Hpos Hok Hr. run.
  destruct (Z.ltb_spec (Product.quantity selected + quantityChange) 0); [lia|].
  destruct fs as [|[] fs]; simpl in *; try congruence; now rewrite Hr.
Qed.

Lemma handleEditSubmit_run (selected : Product.t) (editForm : EditForm) (w : World)
    (r : Db.product) :
  next_call_ok w →
  Db.products (db w) !! Product.id selected = Some r →
  handleEditSubmit (Some selected) editForm w
  = (Normal (),
     mkWorld
       (Db.with_products
          (insert (Product.id selected)
                  (Db.mkProduct (name editForm) (type editForm) (voltage editForm)
                     (rating editForm) (make editForm) (quantity editForm) (unit editForm)
                     (price editForm) (Db.createdAt r) (Some (now w))))
          (db w))
       (toasts w ++ [edited]) (tail (faults w)) (now w) (isSubmitting w) (alerts w)).
Proof.
  unfold next_call_ok, handleEditSubmit. destruct w as [d ts fs n s al]; simpl.
  intros Hok Hr. run.
  destruct fs as [|[] fs]; simpl in *; try congruence; now rewrite Hr.
Qed.

Lemma confirmDelete_run (selected : Product.t) (w : World) :
  next_call_ok w →
  confirmDelete (Some selected) w
  = (Normal (),
     mkWorld (Db.with_products (delete (Product.id selected)) (db w))
       (toasts w ++ [deleted]) (tail (faults w)) (now w) (isSubmitting w) (alerts w)).
Proof.
  unfold next_call_ok, confirmDelete. destruct w as [d ts fs n s al]; simpl.
  intros Hok. run. destruct fs as [|[] fs]; simpl in *; try congruence; reflexivity.
Qed.

Lemma confirmDelete_fails (selected : Product.t) (w : World) (fs : list bool) :
  faults w = true :: fs →
  confirmDelete (Some selected) w
  = (Normal (),
     mkWorld (db w) (toasts w ++ [delete_error]) fs (now w) (isSubmitting w) (alerts w)).
Proof.
  unfold confirmDelete. destruct w as [d ts fs' n s al]; simpl. intros ->. reflexivity.
Qed.

End ProductListWrites.

(** The products a form fetches are the records of the collection: looking
    one up by id in the list is looking up its key in the store. *)
Lemma findProduct_list_to_map (snapshot : Snapshot Db.product) (id : string) :
  QuotationForm.findProduct (QuotationForm.productsOfSnapshot snapshot) id
  = productOf id <$> (list_to_map snapshot : gmap string Db.product) !! id.
Proof.
  induction snapshot as [|[k r] rest IH]; simpl; [reflexivity|].
  unfold QuotationForm.findProduct in *. simpl.
  destruct (String.eqb_spec k id) as [->|Hne].
  - now rewrite lookup_insert_eq.
  - rewrite lookup_insert_ne by exact Hne. exact IH.
Qed.

Lemma represents_list_to_map {V} (snapshot : Snapshot V) (collection : gmap string V) :
  represents snapshot collection → list_to_map snapshot = collection.
Proof.
  unfold represents. intros Hp.
  rewrite <- (list_to_map_to_list collection). apply list_to_map_proper; [|exact Hp].
  rewrite Hp. apply NoDup_fst_map_to_list.
Qed.

Lemma findProduct_snapshot (snapshot : Snapshot Db.product)
    (collection : gmap string Db.product) (id : string) :
  represents snapshot collection →
  QuotationForm.findProduct (QuotationForm.productsOfSnapshot snapshot) id
  = productOf id <$> collection !! id.
Proof. intros H. now rewrite findProduct_list_to_map, (represents_list_to_map _ _ H). Qed.

(** X10.  When the "Update Inventory" button is enabled, the store call goes
    through and the product is in the store, the adjustment writes the
    quantity of the selected product plus the delta, which is not negative,
    and the time of the update, to the record of that product and to nothing
    else: its other fields, the other products, the quotations and the
    invoices are as before; the toast tells the size of the delta and
    whether it was added to or removed from the inventory. *)
Theorem enabled_adjustment_writes_quantity (selected : Product.t) (quantityChange : Z)
    (w : World) (r : Db.product) :
  ProductList.updateDisabled (Some selected) quantityChange = false →
  next_call_ok w →
  Db.products (db w) !! Product.id selected = Some r →
  let w' := after (ProductList.confirmQuantityChange (Some selected) quantityChange) w in
  let newQuantity := Product.quantity selected + quantityChange in
  0 ≤ newQuantity
  ∧ Db.products (db w')
    = <[Product.id selected :=
          Db.mkProduct (Db.name r) (Db.type r) (Db.voltage r) (Db.rating r) (Db.make r)
            newQuantity (Db.unit r) (Db.price r) (Db.createdAt r) (Some (now w))]>
        (Db.products (db w))
  ∧ Db.quotations (db w') = Db.quotations (db w)
  ∧ Db.invoices (db w') = Db.invoices (db w)
  ∧ toasts w'
    = toasts w
      ++ [mkToast "Success"
            (pretty (Z.abs quantityChange) +:+ " " +:+ Product.unit selected +:+ "(s) "
             +:+ (if 0 <? quantityChange then "added to" else "removed from")
             +:+ " inventory.")
            None].
Proof.
  intros Hen Hok Hr w' newQuantity. apply updateDisabled_false in Hen as [_ Hpos].
  subst w'. unfold after.
  rewrite (confirmQuantityChange_written selected quantityChange w r Hpos Hok Hr).
  simpl. now repeat split.
Qed.

Lemma enabled_adjustment_writes_quantity_witness :
  let w := Sample.world pending [] in
  let w' := after (ProductList.confirmQuantityChange (Some Sample.productA) (-3)) w in
  ProductList.updateDisabled (Some Sample.productA) (-3) = false
  ∧ next_call_ok w
  ∧ Db.products (db w) !! "pA" = Some Sample.storedA
  ∧ Db.products (db w')
    = {["pA" := Db.mkProduct "Panel" "solar_panel" "24" "330W" "Acme" 2 "piece" 100 1
                  (Some 1000)]}
  ∧ toasts w' = [mkToast "Success" "3 piece(s) removed from inventory." None].
Proof.
  intros w w'.
  assert (H1 : ProductList.updateDisabled (Some Sample.productA) (-3) = false) by reflexivity.
  assert (H2 : next_call_ok w) by (vm_compute; discriminate).
  assert (H3 : Db.products (db w) !! Product.id Sample.productA = Some Sample.storedA)
    by reflexivity.
  destruct (enabled_adjustment_writes_quantity Sample.productA (-3) w Sample.storedA
              H1 H2 H3) as (_ & Hp & _ & _ & Ht).
  split; [exact H1|]. split; [exact H2|]. split; [exact H3|]. split; [exact Hp | exact Ht].
Defined.

(** An adjustment that passes the guard ends with the success toast or with
    the toast of a failed store call, never with the toast of the guard. *)
Lemma confirmQuantityChange_passes (selected : Product.t) (quantityChange : Z) (w : World) :
  0 ≤ Product.quantity selected + quantityChange →
  ∃ t, toasts (after (ProductList.confirmQuantityChange (Some selected) quantityChange) w)
       = toasts w ++ [t]
       ∧ t ≠ ProductList.negative_error.
Proof.
  intros Hpos. unfold after, ProductList.confirmQuantityChange.
  destruct w as [d ts fs n s al].
  repeat (progress (unfold try_catch, mbind, js_bind, bind, mret, js_ret, ret, toast,
                      modify, gets, serverTimestamp, update_product, io_call, throw; simpl)).
  destruct (Z.ltb_spec (Product.quantity selected + quantityChange) 0); [lia|].
  destruct fs as [|[] fs]; simpl;
    try (destruct (Db.products d !! Product.id selected); simpl);
    (eexists; split; [reflexivity | discriminate]).
Qed.

(** X11.  The guard of the handler and the guard of the button agree: for a
    delta that is not 0, the "Update Inventory" button is disabled exactly
    when [confirmQuantityChange] refuses the adjustment with "Quantity
    cannot be negative."; and for the delta 0 the button is always
    disabled. *)
Theorem button_and_handler_guards_agree (selected : Product.t) (quantityChange : Z)
    (w : World) :
  ProductList.updateDisabled (Some selected) 0 = true
  ∧ (quantityChange ≠ 0 →
     (ProductList.updateDisabled (Some selected) quantityChange = true
      ↔ toasts (after (ProductList.confirmQuantityChange (Some selected) quantityChange) w)
        = toasts w ++ [mkToast "Error" "Quantity cannot be negative." (Some "destructive")])).
Proof.
  split; [reflexivity|]. intros Hnz. split.
  - intros Hdis. unfold after. rewrite confirmQuantityChange_rejected; [reflexivity|].
    destruct (Z.lt_ge_cases (Product.quantity selected + quantityChange) 0) as [H|H];
      [exact H|].
    assert (Hen : ProductList.updateDisabled (Some selected) quantityChange = false)
      by now apply updateDisabled_false.
    congruence.
  - intros Hrun.
    destruct (ProductList.updateDisabled (Some selected) quantityChange) eqn:Hd;
      [reflexivity|]. exfalso.
    apply updateDisabled_false in Hd as [_ Hpos].
    destruct (confirmQuantityChange_passes selected quantityChange w Hpos) as (t & Ht & Hne).
    rewrite Ht in Hrun. apply app_inv_head in Hrun. injection Hrun as ->. now apply Hne.
Qed.

Lemma button_and_handler_guards_agree_witness :
  let w := Sample.world pending [] in
  (-9) ≠ 0
  ∧ ProductList.updateDisabled (Some Sample.productA) (-9) = true
  ∧ toasts (after (ProductList.confirmQuantityChange (Some Sample.productA) (-9)) w)
    = toasts w ++ [mkToast "Error" "Quantity cannot be negative." (Some "destructive")].
Proof.
  intros w.
  assert (H : (-9) ≠ 0) by discriminate.
  assert (Hd : ProductList.updateDisabled (Some Sample.productA) (-9) = true) by reflexivity.
  split; [exact H|]. split; [exact Hd|].
  exact (proj1 (proj2 (button_and_handler_guards_agree Sample.productA (-9) w) H) Hd).
Defined.

(** X12.  Opening the edit dialog on a product and saving it unchanged
    writes the fields of the product as the list holds them, keeps the
    creation time of the record and sets the time of the update; when the
    list is in step with the store the record keeps all its fields, and only
    its update time changes.  Nothing else in the store is touched. *)
Theorem edit_round_trip (selected : Product.t) (w : World) (r : Db.product) :
  next_call_ok w →
  Db.products (db w) !! Product.id selected = Some r →
  let w' := after (ProductList.handleEditSubmit (Some selected)
                     (ProductList.handleEditProduct selected)) w in
  ∃ r', Db.products (db w') = <[Product.id selected := r']> (Db.products (db w))
        ∧ productOf (Product.id selected) r'
          = Product.mk (Product.id selected) (Product.name selected) (Product.type selected)
              (Product.voltage selected) (Product.rating selected) (Product.make selected)
              (Product.quantity selected) (Product.unit selected) (Product.price selected)
              (Db.createdAt r)
        ∧ Db.updatedAt r' = Some (now w)
        ∧ (selected = productOf (Product.id selected) r →
           r' = Db.mkProduct (Db.name r) (Db.type r) (Db.voltage r) (Db.rating r)
                  (Db.make r) (Db.quantity r) (Db.unit r) (Db.price r) (Db.createdAt r)
                  (Some (now w)))
        ∧ Db.quotations (db w') = Db.quotations (db w)
        ∧ Db.invoices (db w') = Db.invoices (db w)
        ∧ toasts w' = toasts w ++ [ProductList.edited].
Proof.
  intros Hok Hr w'. subst w'. unfold after.
  rewrite (handleEditSubmit_run selected _ w r Hok Hr). simpl.
  eexists. split; [reflexivity|]. split; [reflexivity|]. split; [reflexivity|].
  split; [|now repeat split]. intros ->. reflexivity.
Qed.

Lemma edit_round_trip_witness :
  let w := Sample.world pending [] in
  let w' := after (ProductList.handleEditSubmit (Some Sample.productA)
                     (ProductList.handleEditProduct Sample.productA)) w in
  next_call_ok w
  ∧ Db.products (db w) !! "pA" = Some Sample.storedA
  ∧ Sample.productA = productOf "pA" Sample.storedA
  ∧ Db.products (db w')
    = {["pA" := Db.mkProduct "Panel" "solar_panel" "24" "330W" "Acme" 5 "piece" 100 1
                  (Some 1000)]}.
Proof.
  intros w w'.
  assert (H1 : next_call_ok w) by (vm_compute; discriminate).
  assert (H2 : Db.products (db w) !! Product.id Sample.productA = Some Sample.storedA)
    by reflexivity.
  assert (H3 : Sample.productA = productOf (Product.id Sample.productA) Sample.storedA)
    by reflexivity.
  destruct (edit_round_trip Sample.productA w Sample.storedA H1 H2)
    as (r' & Hp & _ & _ & Hsame & _).
  split; [exact H1|]. split; [exact H2|]. split; [exact H3|].
  fold w' in Hp. rewrite Hp, (Hsame H3). reflexivity.
Defined.

(** X13.  Deleting a product removes its record and nothing else: there is
    no cascade, the quotations and invoices that name the product stay as
    they are.  A quotation form that fetches the products afterwards no
    longer finds it: any request with a line for that product is rejected
    with an error toast and writes nothing.  When the store call fails, the
    product stays and the error toast of the deletion is shown. *)
Theorem delete_product_no_cascade (selected : Product.t) (w : World) :
  let w' := after (ProductList.confirmDelete (Some selected)) w in
  (next_call_ok w →
   Db.products (db w') = delete (Product.id selected) (Db.products (db w))
   ∧ Db.quotations (db w') = Db.quotations (db w)
   ∧ Db.invoices (db w') = Db.invoices (db w)
   ∧ toasts w' = toasts w ++ [ProductList.deleted]
   ∧ ∀ snapshot quotationItems item data w2,
       represents snapshot (Db.products (db w')) →
       item ∈ quotationItems →
       QuotationForm.productId item = Product.id selected →
       ∃ t, QuotationForm.onSubmit (QuotationForm.productsOfSnapshot snapshot)
              quotationItems data w2
            = (Normal quotationItems, set_toasts (λ l, l ++ [t]) w2)
            ∧ title t = "Error")
  ∧ (∀ fs, faults w = true :: fs →
       db w' = db w ∧ toasts w' = toasts w ++ [ProductList.delete_error]).
Proof.
  intros w'. subst w'. unfold after. split.
  - intros Hok. rewrite (confirmDelete_run selected w Hok). simpl.
    split; [reflexivity|]. split; [reflexivity|]. split; [reflexivity|].
    split; [reflexivity|].
    intros snapshot quotationItems item data w2 Hrep Hin Hid.
    set (products := QuotationForm.productsOfSnapshot snapshot).
    destruct (QuotationForm.validateItems products quotationItems) as [t|] eqn:Hv.
    + exists t. split; [|now apply validateItems_error in Hv].
      apply onSubmit_rejected; [|exact Hv]. intros ->. inversion Hin.
    + exfalso. apply validateItems_None in Hv. rewrite Forall_forall in Hv.
      destruct (Hv item Hin) as (_ & p & Hp & _). subst products.
      rewrite (findProduct_snapshot snapshot _ _ Hrep), Hid, lookup_delete_eq in Hp.
      discriminate.
  - intros fs Hf. now rewrite (confirmDelete_fails selected w fs Hf).
Qed.

Lemma delete_product_no_cascade_witness :
  let w := Sample.world pending [] in
  let w' := after (ProductList.confirmDelete (Some Sample.productA)) w in
  next_call_ok w
  ∧ Db.products (db w') = ∅
  ∧ Db.quotations (db w') = {["q1" := Sample.stored pending]}
  ∧ represents [] (Db.products (db w'))
  ∧ Sample.lineA ∈ [Sample.lineA]
  ∧ ∃ t, QuotationForm.onSubmit (QuotationForm.productsOfSnapshot []) [Sample.lineA]
           Sample.values w'
         = (Normal [Sample.lineA], set_toasts (λ l, l ++ [t]) w')
         ∧ title t = "Error".
Proof.
  intros w w'.
  assert (H1 : next_call_ok w) by (vm_compute; discriminate).
  destruct (proj1 (delete_product_no_cascade Sample.productA w) H1)
    as (Hp & Hq & _ & _ & Hform). fold w' in Hp, Hq, Hform.
  assert (H2 : represents [] (Db.products (db w')))
    by (unfold represents; rewrite Hp; reflexivity).
  assert (H3 : Sample.lineA ∈ [Sample.lineA]) by (apply list_elem_of_In; now left).
  split; [exact H1|]. split; [rewrite Hp; reflexivity|]. split; [rewrite Hq; reflexivity|].
  split; [exact H2|]. split; [exact H3|].
  exact (Hform [] [Sample.lineA] Sample.lineA Sample.values w' H2 H3 eq_refl).
Defined.

(** X14.  The stock check of the quotation form sees the inventory as the
    adjustments leave it: after an adjustment that was written, a form that
    fetches the products accepts a line for this product exactly when its
    quantity is at most the quantity of the selected product plus the
    delta. *)
Theorem stock_check_follows_adjustment (selected : Product.t) (quantityChange : Z)
    (w : World) (r : Db.product) (snapshot : Snapshot Db.product)
    (item : QuotationForm.QuotationItem) :
  ProductList.updateDisabled (Some selected) quantityChange = false →
  next_call_ok w →
  Db.products (db w) !! Product.id selected = Some r →
  represents snapshot
    (Db.products (db (after (ProductList.confirmQuantityChange (Some selected)
                               quantityChange) w))) →
  QuotationForm.productId item = Product.id selected →
  Product.id selected ≠ "" →
  (line_ok (QuotationForm.productsOfSnapshot snapshot) item
   ↔ QuotationForm.quantity item ≤ Product.quantity selected + quantityChange)
  ∧ (QuotationForm.validateItems (QuotationForm.productsOfSnapshot snapshot) [item] = None
     ↔ QuotationForm.quantity item ≤ Product.quantity selected + quantityChange).
Proof.
  intros Hen Hok Hr Hrep Hid Hne. apply updateDisabled_false in Hen as [_ Hpos].
  unfold after in Hrep.
  rewrite (confirmQuantityChange_written selected quantityChange w r Hpos Hok Hr) in Hrep.
  simpl in Hrep.
  assert (Hfind : QuotationForm.findProduct (QuotationForm.productsOfSnapshot snapshot)
                    (QuotationForm.productId item)
                  = Some (productOf (Product.id selected)
                            (Db.mkProduct (Db.name r) (Db.type r) (Db.voltage r)
                               (Db.rating r) (Db.make r)
                               (Product.quantity selected + quantityChange) (Db.unit r)
                               (Db.price r) (Db.createdAt r) (Some (now w))))).
  { rewrite (findProduct_snapshot snapshot _ _ Hrep), Hid, lookup_insert_eq. reflexivity. }
  assert (Hline : line_ok (QuotationForm.productsOfSnapshot snapshot) item
                  ↔ QuotationForm.quantity item ≤ Product.quantity selected + quantityChange).
  { unfold line_ok. rewrite Hfind. split.
    - intros (_ & p & [= <-] & Hq). exact Hq.
    - intros Hq. split; [congruence|]. eexists. split; [reflexivity | exact Hq]. }
  split; [exact Hline|]. split.
  - intros H. apply validateItems_None in H. apply Hline. now inversion H.
  - intros H. apply validateItems_None. constructor; [now apply Hline | constructor].
Qed.

Lemma stock_check_follows_adjustment_witness :
  let w := Sample.world pending [] in
  let w' := after (ProductList.confirmQuantityChange (Some Sample.productA) (-3)) w in
  let snapshot := map_to_list (Db.products (db w')) in
  let two := QuotationForm.mkItem "pA" 2 (Some Sample.productA) in
  let three := QuotationForm.mkItem "pA" 3 (Some Sample.productA) in
  ProductList.updateDisabled (Some Sample.productA) (-3) = false
  ∧ next_call_ok w
  ∧ represents snapshot (Db.products (db w'))
  ∧ QuotationForm.validateItems (QuotationForm.productsOfSnapshot snapshot) [two] = None
  ∧ ¬ line_ok (QuotationForm.productsOfSnapshot snapshot) three.
Proof.
  intros w w' snapshot two three.
  assert (H1 : ProductList.updateDisabled (Some Sample.productA) (-3) = false) by reflexivity.
  assert (H2 : next_call_ok w) by (vm_compute; discriminate).
  assert (H3 : Db.products (db w) !! Product.id Sample.productA = Some Sample.storedA)
    by reflexivity.
  assert (H4 : represents snapshot (Db.products (db w')))
    by (unfold represents; reflexivity).
  assert (H5 : Product.id Sample.productA ≠ "") by discriminate.
  split; [exact H1|]. split; [exact H2|]. split; [exact H4|]. split.
  - apply (proj2 (stock_check_follows_adjustment Sample.productA (-3) w Sample.storedA
                    snapshot two H1 H2 H3 H4 eq_refl H5)). simpl. lia.
  - intros Hline.
    apply (proj1 (stock_check_follows_adjustment Sample.productA (-3) w Sample.storedA
                    snapshot three H1 H2 H3 H4 eq_refl H5)) in Hline. simpl in Hline. lia.
Defined.

(* ===================================================================== *)
(** ** Further properties: the lists on display *)
(* ===================================================================== *)

Section Sorting.

Context {A : Type} (key : A → Z).

Lemma insert_desc_perm (x : A) (l : list A) : insert_desc key x l ≡ₚ x :: l.
Proof.
  induction l as [|y l IH]; simpl; [reflexivity|].
  destruct (key x <? key y); [|reflexivity].
  rewrite IH. apply perm_swap.
Qed.

Lemma sort_desc_perm (l : list A) : sort_desc key l ≡ₚ l.
Proof.
  induction l as [|x l IH]; simpl; [reflexivity|].
  unfold sort_desc in *. simpl. now rewrite insert_desc_perm, IH.
Qed.

Lemma insert_desc_sorted (x : A) (l : list A) :
  newest_first key l → newest_first key (insert_desc key x l).
Proof.
  unfold newest_first. induction 1 as [|y l Hl IH Hy]; simpl.
  - repeat constructor.
  - destruct (Z.ltb_spec (key x) (key y)) as [Hlt|Hge].
    + constructor; [exact IH|]. rewrite insert_desc_perm. constructor; [lia | exact Hy].
    + constructor; [now constructor|]. constructor; [exact Hge|].
      eapply Forall_impl; [exact Hy|]. intros b Hb. simpl in Hb. lia.
Qed.

Lemma sort_desc_sorted (l : list A) : newest_first key (sort_desc key l).
Proof.
  induction l as [|x l IH]; [constructor|]. now apply insert_desc_sorted.
Qed.

(** Stability: the elements of one key keep the order they came in. *)
Lemma insert_desc_stable (c : Z) (x : A) (l : list A) :
  List.filter (λ a, key a =? c) (insert_desc key x l)
  = List.filter (λ a, key a =? c) (x :: l).
Proof.
  induction l as [|y l IH]; [reflexivity|]. simpl in *.
  destruct (Z.ltb_spec (key x) (key y)) as [Hlt|Hge]; [|reflexivity].
  simpl. rewrite IH.
  destruct (Z.eqb_spec (key x) c), (Z.eqb_spec (key y) c); try reflexivity. lia.
Qed.

Lemma sort_desc_stable (c : Z) (l : list A) :
  List.filter (λ a, key a =? c) (sort_desc key l) = List.filter (λ a, key a =? c) l.
Proof.
  induction l as [|x l IH]; [reflexivity|].
  change (sort_desc key (x :: l)) with (insert_desc key x (sort_desc key l)).
  rewrite insert_desc_stable. simpl. now rewrite IH.
Qed.

Lemma filter_sublist (f : A → bool) (l : list A) : List.filter f l `sublist_of` l.
Proof.
  induction l as [|x l IH]; simpl; [constructor|].
  destruct (f x); now constructor.
Qed.

Lemma filter_newest_first (f : A → bool) (l : list A) :
  newest_first key l → newest_first key (List.filter f l).
Proof.
  unfold newest_first. induction 1 as [|x l Hl IH Hx]; simpl; [constructor|].
  destruct (f x); [|exact IH]. constructor; [exact IH|].
  apply Forall_forall. intros b Hb. rewrite Forall_forall in Hx. apply Hx.
  apply list_elem_of_In. apply list_elem_of_In, filter_In in Hb. tauto.
Qed.

Lemma filter_idem (f : A → bool) (l : list A) :
  List.filter f (List.filter f l) = List.filter f l.
Proof. apply forallb_filter_id, forallb_filter. Qed.

End Sorting.

(** X15.  The product list built from a snapshot holds every stored product
    once, under its key, the most recently added first; products added at
    the same time keep the order of the snapshot. *)
Theorem product_list_newest_first (snapshot : Snapshot Db.product) :
  ProductList.ofSnapshot snapshot ≡ₚ map (λ child, productOf child.1 child.2) snapshot
  ∧ map Product.id (ProductList.ofSnapshot snapshot) ≡ₚ snapshot.*1
  ∧ newest_first Product.createdAt (ProductList.ofSnapshot snapshot)
  ∧ (∀ createdAt,
       List.filter (λ p, Product.createdAt p =? createdAt) (ProductList.ofSnapshot snapshot)
       = List.filter (λ p, Product.createdAt p =? createdAt)
           (map (λ child, productOf child.1 child.2) snapshot)).
Proof.
  split; [apply sort_desc_perm|]. split; [|split].
  - unfold ProductList.ofSnapshot. rewrite sort_desc_perm, map_map. reflexivity.
  - apply sort_desc_sorted.
  - intros c. apply sort_desc_stable.
Qed.

(** X16.  The filter of the product list only hides rows: what it shows is
    a sublist of the products, in their order, so still the most recently
    added first; with a type selected every row shown has that type; with
    the type [all] and a blank search every product is shown; and filtering
    what is shown again changes nothing. *)
Theorem product_filter_only_hides (ops : StringOps) (searchTerm typeFilter : string)
    (products : list Product.t) :
  let shown := ProductList.filterProducts ops searchTerm typeFilter products in
  shown `sublist_of` products
  ∧ (newest_first Product.createdAt products → newest_first Product.createdAt shown)
  ∧ (typeFilter ≠ "all" → Forall (λ p, Product.type p = typeFilter) shown)
  ∧ (typeFilter = "all" → trim ops searchTerm = "" → shown = products)
  ∧ ProductList.filterProducts ops searchTerm typeFilter shown = shown.
Proof.
  intros shown. subst shown. unfold ProductList.filterProducts.
  destruct (String.eqb_spec typeFilter "all") as [Hall|Hall];
    destruct (String.eqb_spec (trim ops searchTerm) "") as [Hblank|Hblank]; simpl.
  - repeat split; done.
  - split; [apply filter_sublist|]. split; [apply filter_newest_first|].
    split; [congruence|]. split; [congruence|]. apply filter_idem.
  - split; [apply filter_sublist|]. split; [apply filter_newest_first|].
    split; [|split; [congruence | apply filter_idem]].
    intros _. apply Forall_forall. intros p Hp.
    apply list_elem_of_In, filter_In in Hp as [_ Hp]. now apply String.eqb_eq in Hp.
  - split; [etrans; apply filter_sublist|].
    split; [intros H; now apply filter_newest_first, filter_newest_first|].
    split; [|split; [congruence|]].
    + intros _. apply Forall_forall. intros p Hp.
      apply list_elem_of_In, filter_In in Hp as [Hp _].
      apply filter_In in Hp as [_ Hp]. now apply String.eqb_eq in Hp.
    + set (f := λ p : Product.t, String.eqb (Product.type p) typeFilter).
      set (g := λ product : Product.t, _ || _ || _ || _).
      assert (Hfg : List.filter f (List.filter g (List.filter f products))
                    = List.filter g (List.filter f products)).
      { apply forallb_filter_id, forallb_forall. intros p Hp.
        apply filter_In in Hp as [Hp _]. now apply filter_In in Hp as [_ Hp]. }
      rewrite Hfg. apply filter_idem.
Qed.

(* ===================================================================== *)
(** ** Further properties: QuotationList *)
(* ===================================================================== *)

Lemma itemWithName_same_amounts (productName : string → option string)
    (items : list QuotationItem.t) :
  Forall2 same_amounts (map (QuotationList.itemWithName productName) items) items.
Proof. induction items; constructor; [now repeat split | assumption]. Qed.

(** X17.  Putting the names on the quotations changes names only.  The
    effect runs when [customers] and [products] have a key each, and does
    nothing otherwise.  A quotation with names has the id, customer, total,
    validity date, status, notes and creation time it had, and its lines
    have the product ids, quantities, unit prices and subtotals they had;
    the customer is named by what [customers[customerId]?.name] gives, or
    "Unknown Customer" when that is undefined or empty.  So the invoice made
    from the quotation with names has the total and the amounts of the
    invoice made from the quotation without. *)
Theorem names_change_names_only (customerKeys productKeys : nat)
    (customerName productName : string → option string) (quotations : list Quotation.t) :
  (QuotationList.updateNames customerKeys productKeys customerName productName quotations
   = None
   ↔ customerKeys = 0%nat ∨ productKeys = 0%nat)
  ∧ (customerKeys ≠ 0%nat → productKeys ≠ 0%nat →
     QuotationList.updateNames customerKeys productKeys customerName productName quotations
     = Some (map (QuotationList.quotationWithNames customerName productName) quotations))
  ∧ ∀ quotation,
      let named := QuotationList.quotationWithNames customerName productName quotation in
      Quotation.id named = Quotation.id quotation
      ∧ Quotation.customerId named = Quotation.customerId quotation
      ∧ Quotation.totalAmount named = Quotation.totalAmount quotation
      ∧ Quotation.validUntil named = Quotation.validUntil quotation
      ∧ Quotation.status named = Quotation.status quotation
      ∧ Quotation.notes named = Quotation.notes quotation
      ∧ Quotation.createdAt named = Quotation.createdAt quotation
      ∧ Forall2 same_amounts (Quotation.items named) (Quotation.items quotation)
      ∧ (customerName (Quotation.customerId quotation) = None
         ∨ customerName (Quotation.customerId quotation) = Some "" →
         Quotation.customerName named = Some "Unknown Customer")
      ∧ (∀ name, customerName (Quotation.customerId quotation) = Some name → name ≠ "" →
           Quotation.customerName named = Some name)
      ∧ (∀ customerId invoiceType data createdAt,
           let invoice q := InvoiceGenerator.invoiceData q customerId invoiceType data
                              createdAt in
           Db.i_totalAmount (invoice named) = Db.i_totalAmount (invoice quotation)
           ∧ Forall2 same_amounts (Db.i_items (invoice named))
               (Db.i_items (invoice quotation))).
Proof.
  unfold QuotationList.updateNames. split; [|split].
  - destruct customerKeys as [|c], productKeys as [|p]; simpl.
    + split; [intros _; now left | reflexivity].
    + split; [intros _; now left | reflexivity].
    + split; [intros _; now right | reflexivity].
    + split; [discriminate | intros [H|H]; discriminate].
  - intros Hc Hp. destruct customerKeys, productKeys; simpl; congruence.
  - intros quotation. simpl.
    repeat (split; [reflexivity|]).
    split; [apply itemWithName_same_amounts|]. split; [|split].
    + intros [-> | ->]; reflexivity.
    + intros name -> Hname. unfold or_string.
      destruct (String.eqb_spec name ""); congruence.
    + intros customerId invoiceType data createdAt. simpl.
      split; [|apply itemWithName_same_amounts].
      unfold InvoiceGenerator.totalAmount. reflexivity.
Qed.

(** X18.  The quotation list on display: built from a snapshot it holds
    every stored quotation once, under its key, with the total, the items
    and the status of the record, the newest first (a record without
    creation time counts as created now); a search only hides rows, keeps
    the order, and with a blank term hides nothing. *)
Theorem quotation_list_on_display (ops : StringOps) (dateNow : Z) (term : string)
    (snapshot : Snapshot Db.quotation) :
  let quotations := QuotationList.ofSnapshot dateNow snapshot in
  let shown := QuotationList.handleSearch ops term quotations in
  map Quotation.id quotations ≡ₚ snapshot.*1
  ∧ newest_first Quotation.createdAt quotations
  ∧ Forall (λ q, ∃ r, (Quotation.id q, r) ∈ snapshot
                      ∧ Quotation.items q = Db.items r
                      ∧ Quotation.totalAmount q = Db.totalAmount r
                      ∧ Quotation.status q = Db.status r
                      ∧ Quotation.customerId q = Db.customerId r
                      ∧ Quotation.createdAt q
                        = (if Db.q_createdAt r =? 0 then dateNow else Db.q_createdAt r))
           quotations
  ∧ shown `sublist_of` quotations
  ∧ newest_first Quotation.createdAt shown
  ∧ (trim ops term = "" → shown = quotations).
Proof.
  intros quotations shown. subst quotations shown. unfold QuotationList.ofSnapshot.
  set (l := map _ snapshot).
  assert (Hperm : sort_desc Quotation.createdAt l ≡ₚ l) by apply sort_desc_perm.
  split.
  { rewrite Hperm. subst l. rewrite map_map. simpl. reflexivity. }
  split; [apply sort_desc_sorted|]. split.
  { rewrite Hperm. subst l. apply Forall_forall. intros q Hq.
    apply list_elem_of_In, in_map_iff in Hq as ([k r] & <- & Hin). simpl.
    exists r. split; [now apply list_elem_of_In|]. now repeat split. }
  unfold QuotationList.handleSearch.
  destruct (String.eqb_spec (trim ops term) "") as [Hblank|Hblank].
  - split; [reflexivity|]. split; [apply sort_desc_sorted | reflexivity].
  - split; [apply filter_sublist|].
    split; [apply filter_newest_first, sort_desc_sorted | congruence].
Qed.

Section QuotationListWrites.

Import QuotationList.

Ltac run :=
  repeat (progress (unfold try_catch, mbind, js_bind, bind, mret, js_ret, ret, toast,
                      modify, gets, remove_quotation, io_call, throw; simpl)).

Lemma handleDeleteQuotation_run (quotationId : string) (w : World) :
  next_call_ok w →
  handleDeleteQuotation quotationId w
  = (Normal (),
     mkWorld (Db.with_quotations (delete quotationId) (db w))
       (toasts w ++ [deleted]) (tail (faults w)) (now w) (isSubmitting w) (alerts w)).
Proof.
  unfold next_call_ok, handleDeleteQuotation. destruct w as [d ts fs n s al]; simpl.
  intros Hok. run. destruct fs as [|[] fs]; simpl in *; try congruence; reflexivity.
Qed.

Lemma handleDeleteQuotation_fails (quotationId : string) (w : World) (fs : list bool) :
  faults w = true :: fs →
  handleDeleteQuotation quotationId w
  = (Normal (),
     mkWorld (db w) (toasts w ++ [delete_error]) fs (now w) (isSubmitting w) (alerts w)).
Proof.
  unfold handleDeleteQuotation. destruct w as [d ts fs' n s al]; simpl. intros ->.
  reflexivity.
Qed.

End QuotationListWrites.

(** X19.  Deleting a quotation removes its record and nothing else: the
    other quotations, the products and the invoices are as before, the
    invoices generated from the quotation included (no cascade); deleting a
    quotation that the store no longer holds changes nothing and still
    reports success.  When the store call fails the quotation stays and the
    error toast is shown. *)
Theorem delete_quotation_no_cascade (quotationId : string) (w : World) :
  let w' := after (QuotationList.handleDeleteQuotation quotationId) w in
  (next_call_ok w →
   Db.quotations (db w') !! quotationId = None
   ∧ (∀ k, k ≠ quotationId → Db.quotations (db w') !! k = Db.quotations (db w) !! k)
   ∧ Db.invoices (db w') = Db.invoices (db w)
   ∧ Db.products (db w') = Db.products (db w)
   ∧ (Db.quotations (db w) !! quotationId = None → db w' = db w)
   ∧ toasts w' = toasts w ++ [QuotationList.deleted])
  ∧ (∀ fs, faults w = true :: fs →
       db w' = db w ∧ toasts w' = toasts w ++ [QuotationList.delete_error]).
Proof.
  intros w'. subst w'. unfold after. split.
  - intros Hok. rewrite (handleDeleteQuotation_run quotationId w Hok). simpl.
    split; [apply lookup_delete_eq|]. split; [intros k Hk; now apply lookup_delete_ne|].
    split; [reflexivity|]. split; [reflexivity|]. split; [|reflexivity].
    intros Hnone. destruct (db w) as [ps qs invs]. simpl in *. unfold Db.with_quotations.
    simpl. f_equal. now apply delete_id.
  - intros fs Hf. now rewrite (handleDeleteQuotation_fails quotationId w fs Hf).
Qed.

Lemma delete_quotation_no_cascade_witness :
  let w := Sample.world invoiced [] in
  let w1 := after (InvoiceGenerator.onSubmit (Sample.quotation invoiced) (Some Sample.ann) ∅
                     customer Sample.plain) w in
  let w2 := after (QuotationList.handleDeleteQuotation "q1") w1 in
  next_call_ok w1
  ∧ Db.quotations (db w2) !! "q1" = None
  ∧ (Db.quotationId <$> Db.invoices (db w2) !! "0") = Some "q1".
Proof.
  intros w w1 w2.
  assert (H : next_call_ok w1) by (vm_compute; discriminate).
  destruct (proj1 (delete_quotation_no_cascade "q1" w1) H) as (Hq & _ & Hi & _).
  fold w2 in Hq, Hi.
  split; [exact H|]. split; [exact Hq|]. rewrite Hi. reflexivity.
Defined.

(* ===================================================================== *)
(** ** Further properties: AuthContext *)
(* ===================================================================== *)

(** X20.  Who is an administrator.  When the store calls go through, after
    the callback of the authentication state the provider is done loading
    and: with nobody signed in there is no user data and nobody is
    administrator; a user who has a record under [users/] gets that record,
    which alone decides the role, and the store is left as it is; a user
    without record gets a new record with the role [admin], written under
    the uid, and is administrator.  A later callback for the same user reads
    that record back and writes nothing. *)
Theorem role_of_signed_in_user (user : AuthContext.User.t) (s : AuthContext.State) :
  AuthContext.faults s = [] →
  let out := AuthContext.onAuthStateChanged None s in
  let s' := AuthContext.onAuthStateChanged (Some user) s in
  let uid := AuthContext.User.uid user in
  (AuthContext.userData out = None ∧ AuthContext.isAdmin out = false
   ∧ AuthContext.users out = AuthContext.users s ∧ AuthContext.isLoading out = false)
  ∧ AuthContext.currentUser s' = Some user
  ∧ AuthContext.isLoading s' = false
  ∧ AuthContext.toasts s' = AuthContext.toasts s
  ∧ (∀ data, AuthContext.users s !! uid = Some data →
       AuthContext.userData s' = Some data
       ∧ AuthContext.users s' = AuthContext.users s
       ∧ (AuthContext.isAdmin s' = true ↔ AuthContext.role data = AuthContext.admin))
  ∧ (AuthContext.users s !! uid = None →
       AuthContext.users s' = <[uid := AuthContext.defaultUserData user]> (AuthContext.users s)
       ∧ AuthContext.userData s' = Some (AuthContext.defaultUserData user)
       ∧ AuthContext.isAdmin s' = true)
  ∧ AuthContext.userData (AuthContext.onAuthStateChanged (Some user) s')
    = AuthContext.userData s'
  ∧ AuthContext.users (AuthContext.onAuthStateChanged (Some user) s') = AuthContext.users s'.
Proof.
  destruct s as [users cu ud il ts fs]. simpl. intros ->.
  unfold AuthContext.onAuthStateChanged, AuthContext.isAdmin. simpl.
  split; [now repeat split|].
  destruct (users !! AuthContext.User.uid user) as [data|] eqn:Hu; simpl.
  - rewrite Hu. simpl. repeat split; try congruence.
    + injection H as <-. destruct (AuthContext.role data); congruence.
    + injection H as <-. destruct (AuthContext.role data); congruence.
  - rewrite lookup_insert_eq. simpl. repeat split; try congruence.
Qed.

Lemma role_of_signed_in_user_witness :
  let newcomer := AuthContext.User.mk "u1" (Some "eve@example.org") None in
  let s := AuthContext.mkState ∅ None None true [] [] in
  let s' := AuthContext.onAuthStateChanged (Some newcomer) s in
  AuthContext.faults s = []
  ∧ AuthContext.users s !! "u1" = None
  ∧ AuthContext.users s'
    = {["u1" := AuthContext.mkUserData "eve@example.org" AuthContext.admin (Some "")]}
  ∧ AuthContext.isAdmin s' = true.
Proof.
  intros newcomer s s'.
  assert (H1 : AuthContext.faults s = []) by reflexivity.
  assert (H2 : AuthContext.users s !! AuthContext.User.uid newcomer = None) by reflexivity.
  destruct (role_of_signed_in_user newcomer s H1) as (_ & _ & _ & _ & _ & Hnew & _).
  destruct (Hnew H2) as (Hu & _ & Ha). fold s' in Hu, Ha.
  split; [exact H1|]. split; [exact H2|]. split; [rewrite Hu; reflexivity | exact Ha].
Defined.

(** X21.  When reading the record of the user fails, the error toast is
    shown and the user data is left as it was: the provider shows the new
    user as current, done loading, with the user data, and so the role, of
    whoever was there before; the store is not written. *)
Theorem failed_read_keeps_user_data (user : AuthContext.User.t) (s : AuthContext.State)
    (rest : list bool) :
  AuthContext.faults s = true :: rest →
  let s' := AuthContext.onAuthStateChanged (Some user) s in
  AuthContext.currentUser s' = Some user
  ∧ AuthContext.userData s' = AuthContext.userData s
  ∧ AuthContext.isAdmin s' = AuthContext.isAdmin s
  ∧ AuthContext.isLoading s' = false
  ∧ AuthContext.users s' = AuthContext.users s
  ∧ AuthContext.toasts s'
    = AuthContext.toasts s
      ++ [mkToast "Error" "Failed to load user data. Please try again." (Some "destructive")].
Proof.
  destruct s as [users cu ud il ts fs]. simpl. intros ->. now repeat split.
Qed.

Lemma failed_read_keeps_user_data_witness :
  let boss := AuthContext.mkUserData "boss@example.org" AuthContext.admin None in
  let other := AuthContext.User.mk "u2" (Some "staff@example.org") None in
  let s := AuthContext.mkState
             {["u2" := AuthContext.mkUserData "staff@example.org" AuthContext.employee None]}
             None (Some boss) false [] [true] in
  let s' := AuthContext.onAuthStateChanged (Some other) s in
  AuthContext.faults s = [true]
  ∧ AuthContext.currentUser s' = Some other
  ∧ AuthContext.userData s' = Some boss
  ∧ AuthContext.isAdmin s' = true.
Proof.
  intros boss other s s'.
  assert (H : AuthContext.faults s = true :: []) by reflexivity.
  destruct (failed_read_keeps_user_data other s [] H) as (Hc & Hd & Ha & _).
  fold s' in Hc, Hd, Ha.
  split; [exact H|]. split; [exact Hc|]. split; [exact Hd|]. rewrite Ha. reflexivity.
Defined.

(* ===================================================================== *)
(** ** Further properties: StatsOverview *)
(* ===================================================================== *)

Lemma category_total_bump (categories : gmap string Z) (type : string) :
  category_total (<[type := or_number (categories !! type) 0 + 1]> categories)
  = category_total categories + 1.
Proof.
  unfold category_total. destruct (categories !! type) as [v|] eqn:Hv.
  - rewrite or_number_zero.
    rewrite <- (insert_delete_eq categories type (v + 1)).
    rewrite (sumZ_map_perm snd _ _ (map_to_list_insert _ type (v + 1)
                                      (lookup_delete_eq categories type))).
    rewrite <- (sumZ_map_perm snd _ _ (map_to_list_delete categories type v Hv)).
    unfold sumZ. simpl. lia.
  - rewrite (sumZ_map_perm snd _ _ (map_to_list_insert categories type _ Hv)).
    unfold sumZ, or_number. simpl. lia.
Qed.

(** Once the count has stopped, it stays stopped. *)
Lemma categories_stopped (inherited : string → bool) (snapshot : Snapshot Db.product) :
  fold_left
    (λ counted child,
       match counted with
       | Some categories =>
           let type := or_string (Some (Db.type child.2)) "Other" in
           if inherited type then None
           else Some (<[type := or_number (categories !! type) 0 + 1]> categories)
       | None => None
       end)
    snapshot (None : option (gmap string Z))
  = None.
Proof. induction snapshot as [|child rest IH]; [reflexivity | exact IH]. Qed.

Lemma categories_fold (inherited : string → bool) (snapshot : Snapshot Db.product)
    (acc : gmap string Z) :
  match
    fold_left
      (λ counted child,
         match counted with
         | Some categories =>
             let type := or_string (Some (Db.type child.2)) "Other" in
             if inherited type then None
             else Some (<[type := or_number (categories !! type) 0 + 1]> categories)
         | None => None
         end)
      snapshot (Some acc)
  with
  | Some result =>
      Forall (λ child, inherited (category child) = false) snapshot
      ∧ category_total result = category_total acc + Z.of_nat (length snapshot)
      ∧ (map_Forall (λ _ v, 1 ≤ v) acc → map_Forall (λ _ v, 1 ≤ v) result)
      ∧ (∀ child, child ∈ snapshot → is_Some (result !! category child))
      ∧ (∀ k, is_Some (acc !! k) → is_Some (result !! k))
  | None => Exists (λ child, inherited (category child) = true) snapshot
  end.
Proof.
  revert acc. induction snapshot as [|child rest IH]; intros acc; cbn [fold_left length];
    cbv zeta.
  - split; [constructor|]. split; [simpl; lia|]. split; [tauto|]. split; [|tauto].
    intros child Hc. inversion Hc.
  - fold (category child). destruct (inherited (category child)) eqn:Hi.
    { rewrite categories_stopped. now left. }
    set (type := category child).
    set (acc' := <[type := or_number (acc !! type) 0 + 1]> acc).
    specialize (IH acc'). cbv zeta in IH.
    destruct (fold_left _ rest (Some acc')) as [result|]; [|now right].
    destruct IH as (Hall & Hsum & Hpos & Hmem & Hkeep).
    split; [now constructor|]. split; [|split; [|split]].
    + rewrite Hsum. subst acc'. rewrite category_total_bump. lia.
    + intros Hacc. apply Hpos. subst acc'. apply map_Forall_insert_2; [|exact Hacc].
      destruct (acc !! type) as [v|] eqn:Hv.
      * rewrite or_number_zero. specialize (Hacc type v Hv). simpl in Hacc. lia.
      * unfold or_number. lia.
    + intros c Hc. apply elem_of_cons in Hc as [->|Hc]; [|now apply Hmem].
      apply Hkeep. subst acc'. fold type. rewrite lookup_insert_eq. eauto.
    + intros k Hk. apply Hkeep. subst acc'.
      destruct (decide (type = k)) as [->|Hne];
        [rewrite lookup_insert_eq; eauto | now rewrite lookup_insert_ne].
Qed.

(** X22.  The categories of the dashboard add up.  Unless a product has a
    type that names a member every object inherits (where the counters of
    the source are no counters, and the model stops): the values of the
    categories sum to the number of products, every category shown counts
    at least one product, the names are distinct, and every product is
    counted under its type, or under "Other" when it has none. *)
Theorem categories_add_up (inherited : string → bool) (snapshot : Snapshot Db.product) :
  (StatsOverview.productsByCategory inherited snapshot = None
   ↔ Exists (λ child, inherited (category child) = true) snapshot)
  ∧ ∀ shown,
      StatsOverview.productsByCategory inherited snapshot = Some shown →
      sumZ (map snd shown) = StatsOverview.count snapshot
      ∧ Forall (λ counter, 1 ≤ counter.2) shown
      ∧ NoDup (map fst shown)
      ∧ (∀ child, child ∈ snapshot → ∃ value, (category child, value) ∈ shown).
Proof.
  unfold StatsOverview.productsByCategory, StatsOverview.categories, StatsOverview.count.
  pose proof (categories_fold inherited snapshot ∅) as Hfold.
  destruct (fold_left _ snapshot (Some ∅)) as [result|]; simpl.
  - destruct Hfold as (Hall & Hsum & Hpos & Hmem & _). split.
    + split; [discriminate|]. intros Hex. apply Exists_exists in Hex as (child & Hin & Hc).
      rewrite Forall_forall in Hall. rewrite (Hall child Hin) in Hc. discriminate.
    + intros shown [= <-]. split; [|split; [|split]].
      * unfold category_total in Hsum. rewrite Hsum, map_to_list_empty. unfold sumZ.
        simpl. lia.
      * apply Forall_forall. intros [k v] Hin. apply elem_of_map_to_list in Hin.
        exact (Hpos (map_Forall_empty _) k v Hin).
      * apply NoDup_fst_map_to_list.
      * intros child Hc. destruct (Hmem child Hc) as [v Hv]. exists v.
        now apply elem_of_map_to_list.
  - split; [now split | discriminate].
Qed.

(** X23.  Total sales.  Cancelled invoices do not count, in every
    arithmetic: the total sales are those of the invoices that are not
    cancelled, in the order of the keys, and an empty collection has the
    total sales 0.  An invoice that comes last adds its total ([0] when it
    has none) in one addition, unless it is cancelled.  In an arithmetic
    whose addition is exact the total sales do not depend on the order of
    the invoices. *)
Theorem cancelled_invoices_do_not_count (N : Type) (arithmetic : Number.t N)
    (invoices : list (InvoiceStatus * N)) (status : InvoiceStatus) (totalAmount : N) :
  Amounts.totalSales (List.filter counted invoices) = Amounts.totalSales invoices
  ∧ Amounts.totalSales ([] : list (InvoiceStatus * N)) = Number.zero
  ∧ Amounts.totalSales (invoices ++ [(status, totalAmount)])
    = (if counted (status, totalAmount)
       then Number.add (Amounts.totalSales invoices) (Amounts.or_zero totalAmount)
       else Amounts.totalSales invoices)
  ∧ (exact_addition N →
     ∀ invoices', Permutation invoices invoices' →
       Amounts.totalSales invoices' = Amounts.totalSales invoices).
Proof.
  split; [apply totalSales_counted_from|]. split; [reflexivity|]. split.
  - unfold Amounts.totalSales. rewrite fold_left_app. now destruct status.
  - intros (Hassoc & Hcomm & _) invoices' Hperm. symmetry. unfold Amounts.totalSales.
    apply fold_left_permutation; [|exact Hperm].
    intros a [[] x] [[] y]; simpl; try reflexivity; rewrite !Hassoc; f_equal; apply Hcomm.
Qed.

(* ===================================================================== *)
(** ** Further properties: from the form to the invoice *)
(* ===================================================================== *)

(** X24.  End to end.  Take a quotation that the form has just written, as
    the quotation list reads it back from the store and puts the names on
    it: the invoice generated from it is filed under the key of the
    quotation, its lines have the product ids, quantities, unit prices and
    subtotals that the form computed, and its total is the running total of
    the form with the amounts of the additional items added to it one after
    the other: the running total itself when there is none. *)
Theorem form_to_invoice (products : list Product.t)
    (quotationItems : list QuotationForm.QuotationItem) (values : QuotationFormValues.t)
    (w : World) (k : string) (r : Db.quotation)
    (dateNow : Z) (snapshot : Snapshot Db.quotation) (listed : Quotation.t)
    (customerName productName : string → option string)
    (customerId : string) (invoiceType : InvoiceType) (data : InvoiceFormValues.t)
    (createdAt : Z) :
  let w' := after (QuotationForm.onSubmit products quotationItems values) w in
  Db.quotations (db w) !! k = None →
  Db.quotations (db w') !! k = Some r →
  represents snapshot (Db.quotations (db w')) →
  listed ∈ QuotationList.ofSnapshot dateNow snapshot →
  Quotation.id listed = k →
  let invoice :=
    InvoiceGenerator.invoiceData
      (QuotationList.quotationWithNames customerName productName listed)
      customerId invoiceType data createdAt in
  let extra := default [] (InvoiceFormValues.additionalItems data) in
  Db.quotationId invoice = k
  ∧ Forall2 same_amounts (Db.i_items invoice) (map QuotationForm.storedItem quotationItems)
  ∧ Db.i_totalAmount invoice
    = fold_left (λ totalAmount item, totalAmount + AdditionalItem.amount item) extra
        (QuotationForm.total quotationItems)
  ∧ (extra = [] → Db.i_totalAmount invoice = QuotationForm.total quotationItems)
  ∧ Db.i_status invoice = active.
Proof.
  intros w' Hold Hnew Hrep Hin Hid invoice extra.
  destruct (totalAmount_written products quotationItems values w k r Hold Hnew)
    as (Hitems & Htotal).
  assert (Hq : Quotation.items listed = Db.items r
               ∧ Quotation.totalAmount listed = Db.totalAmount r).
  { unfold QuotationList.ofSnapshot in Hin. rewrite sort_desc_perm in Hin.
    apply list_elem_of_In, in_map_iff in Hin as ([k' r'] & <- & Hin'). simpl in *.
    subst k'. apply list_elem_of_In in Hin'. unfold represents in Hrep.
    rewrite Hrep in Hin'. apply elem_of_map_to_list in Hin'.
    fold w' in Hnew. rewrite Hnew in Hin'. injection Hin' as <-. now split. }
  destruct Hq as [Hqi Hqt].
  assert (Ht : Db.i_totalAmount invoice
               = fold_left (λ totalAmount item, totalAmount + AdditionalItem.amount item)
                   extra (QuotationForm.total quotationItems)).
  { subst invoice extra. simpl. rewrite InvoiceGenerator_totalAmount_fold. simpl.
    now rewrite Hqt, Htotal. }
  split; [exact Hid|]. split; [|split; [exact Ht|split; [|reflexivity]]].
  - subst invoice. simpl. rewrite Hqi, Hitems. apply itemWithName_same_amounts.
  - intros Hnil. rewrite Ht, Hnil. reflexivity.
Qed.

Lemma form_to_invoice_witness :
  let items := [Sample.lineA; Sample.lineB] in
  let w' := after (QuotationForm.onSubmit Sample.products items Sample.values)
                  Sample.empty_world in
  let r := Db.mkQuotation "c1" "2026-01-01" None Sample.itemsAB 250 pending 1000 in
  let listed := Quotation.mk "0" "c1" None Sample.itemsAB 250 "2026-01-01" pending None 1000 in
  let invoice :=
    InvoiceGenerator.invoiceData
      (QuotationList.quotationWithNames (λ _, Some "Ann") (λ _, None) listed)
      "c1" customer Sample.installation 2000 in
  Db.quotations (db Sample.empty_world) !! "0" = None
  ∧ Db.quotations (db w') !! "0" = Some r
  ∧ represents [("0", r)] (Db.quotations (db w'))
  ∧ listed ∈ QuotationList.ofSnapshot 7 [("0", r)]
  ∧ Db.i_totalAmount invoice = QuotationForm.total items + 75
  ∧ Db.i_totalAmount invoice = 325.
Proof.
  intros items w' r listed invoice.
  assert (H1 : Db.quotations (db Sample.empty_world) !! "0" = None) by reflexivity.
  assert (H2 : Db.quotations (db w') !! "0" = Some r) by (vm_compute; reflexivity).
  assert (H3 : represents [("0", r)] (Db.quotations (db w')))
    by (unfold represents; reflexivity).
  assert (H4 : listed ∈ QuotationList.ofSnapshot 7 [("0", r)])
    by (apply list_elem_of_In; left; reflexivity).
  destruct (form_to_invoice Sample.products items Sample.values Sample.empty_world "0" r 7
              [("0", r)] listed (λ _, Some "Ann") (λ _, None) "c1"
              customer Sample.installation 2000 H1 H2 H3 H4 eq_refl) as (_ & _ & Ht & _).
  split; [exact H1|]. split; [exact H2|]. split; [exact H3|]. split; [exact H4|].
  split; [exact Ht | reflexivity].
Defined.
